(** * The roadmap page of the placement-preparation dashboard

    A shallow embedding of [frontend/src/app/roadmap/page.tsx] (the
    [RoadmapPage] component and its handlers [loadRoadmap],
    [generateRoadmap], [completeTask]) and of the [roadmapAPI] client of
    [lib/api.ts], followed by the properties of the roadmap engine that the
    page can be checked against.

    Conventions of the embedding.
    - A JavaScript number that comes from the backend or from React state is
      an integer of [Z]; a number that is declared non-optional but that the
      page guards with [||] is an [option Z] ([None] is [undefined]).  The
      number produced by [parseInt] may be [NaN], so it has its own type.
    - An [async] handler is a computation over the React state of the page
      that may await the backend, may throw, and logs what it sends and
      shows.  One handler runs to completion before the next event.
    - The backend is an oracle: for every call of [roadmapAPI] it either
      rejects or resolves with the response data. *)

From Stdlib Require Import ZArith String Ascii List Bool Lia.
From stdpp Require Import base list strings pretty gmap.

Open Scope Z_scope.

(** ** Data model (the interfaces at the top of page.tsx) *)

Record Task := {
  task_id : string;
  title : string;
  description : string;
  resource_type : string;
  resource_url : option string;
  duration_minutes : Z;
  completed : bool
}.

Record DayPlan := {
  day : Z;
  date : string;
  tasks : list Task;
  focus_area : string
}.

Record WeekPlan := {
  week : Z;
  theme : string;
  days : list DayPlan;
  milestone : string
}.

Record Roadmap := {
  roadmap_id : string;
  student_id : string;
  target_company : option string;
  target_role : option string;
  duration_weeks : Z;
  current_week : option Z;
  progress : option Z;
  weeks : list WeekPlan;
  created_at : string
}.

(** The [User] of lib/store.ts; the page reads [user?.student_id] only. *)
Module User.
Record t := {
  student_id : string;
  name : string;
  email : string;
  readiness_score : Z;
  skills : list string;
  communication : string
}.
End User.

(** ** JavaScript values *)

Inductive number :=
| Num (z : Z)
| NaN.

Inductive JsValue :=
| JUndefined
| JString (s : string)
| JNumber (n : number).

(** An object literal: its keys in the order written. *)
Definition JsObject := list (string * JsValue).

Fixpoint js_get (key : string) (o : JsObject) : option JsValue :=
  match o with
  | [] => None
  | (k, v) :: o' => if String.eqb k key then Some v else js_get key o'
  end.

Definition js_keys (o : JsObject) : list string := fst <$> o.

(** [x || d] on a number that may be missing: [undefined] and [0] are falsy. *)
Definition or_number (x : option Z) (d : Z) : Z :=
  match x with
  | Some v => if v =? 0 then d else v
  | None => d
  end.

(** [s || undefined] on a string: the empty string is falsy. *)
Definition or_undefined (s : string) : JsValue :=
  match s with
  | EmptyString => JUndefined
  | _ => JString s
  end.

(** [user?.student_id || 'demo_user'] *)
Definition student_id_or_demo (user : option User.t) : string :=
  match user with
  | Some u =>
      match User.student_id u with
      | EmptyString => "demo_user"
      | s => s
      end
  | None => "demo_user"
  end.

(** *** [parseInt] without a radix

    Leading white space is skipped, a sign is read, a [0x] prefix selects
    radix 16, and the longest prefix of digits is converted; no digit at all
    gives [NaN]. *)

Definition is_space (c : ascii) : bool :=
  let n := nat_of_ascii c in
  ((n =? 32) || (n =? 9) || (n =? 10) || (n =? 11) || (n =? 12) || (n =? 13))%nat.

Fixpoint skip_spaces (s : string) : string :=
  match s with
  | String c s' => if is_space c then skip_spaces s' else s
  | EmptyString => s
  end.

Definition digit_value (radix : Z) (c : ascii) : option Z :=
  let n := Z.of_nat (nat_of_ascii c) in
  let d :=
    if (48 <=? n) && (n <=? 57) then Some (n - 48)
    else if (97 <=? n) && (n <=? 122) then Some (n - 87)
    else if (65 <=? n) && (n <=? 90) then Some (n - 55)
    else None in
  match d with
  | Some v => if v <? radix then Some v else None
  | None => None
  end.

Fixpoint parse_digits (radix : Z) (s : string) (acc : option Z) : option Z :=
  match s with
  | String c s' =>
      match digit_value radix c with
      | Some d => parse_digits radix s' (Some (radix * default 0 acc + d))
      | None => acc
      end
  | EmptyString => acc
  end.

Definition parseInt (input : string) : number :=
  let s := skip_spaces input in
  let '(negative, s) :=
    match s with
    | String "-" s' => (true, s')
    | String "+" s' => (false, s')
    | _ => (false, s)
    end in
  let '(radix, s) :=
    match s with
    | String "0" (String "x" s') => (16, s')
    | String "0" (String "X" s') => (16, s')
    | _ => (10, s)
    end in
  match parse_digits radix s None with
  | Some n => Num (if negative : bool then - n else n)
  | None => NaN
  end.

(** ** The API client (lib/api.ts)

    Every function of [roadmapAPI] that the page calls, indexed by the type
    of [response.data] as the page uses it, and the HTTP request that the
    function performs through [api.get] / [api.post].  URLs are relative to
    the [baseURL] of the axios instance. *)

Module TodaysTasks.
(** [tasksResponse.data], read as [tasksResponse.data.tasks || []]. *)
Record data := { tasks : option (list Task) }.
End TodaysTasks.

Inductive roadmapAPI : Type -> Type :=
| generate (data : JsObject) : roadmapAPI (option Roadmap)
| getActive (studentId : string) : roadmapAPI (option Roadmap)
| getTodaysTasks (roadmapId : string) : roadmapAPI (option TodaysTasks.data)
| updateProgress (roadmapId taskId : string) : roadmapAPI unit.

Inductive HttpRequest :=
| GET (url : string)
| POST (url : string) (data : JsObject).

Definition request_of {R} (call : roadmapAPI R) : HttpRequest :=
  match call with
  | generate data => POST "/roadmap/generate" data
  | getActive studentId => GET ("/roadmap/student/" +:+ studentId +:+ "/active")
  | getTodaysTasks roadmapId => GET ("/roadmap/" +:+ roadmapId +:+ "/today")
  | updateProgress roadmapId taskId =>
      POST ("/roadmap/" +:+ roadmapId +:+ "/progress") [("task_id", JString taskId)]
  end.

(** The backend: [None] is a rejected promise. *)
Definition Server := forall R, roadmapAPI R -> option R.

(** ** React state of the page *)

Module GenerationParams.
Record t := {
  duration_weeks : number;
  daily_commitment : string;
  target_company : string;
  target_role : string
}.
End GenerationParams.

Record PageState := {
  roadmap : option Roadmap;
  currentWeek : Z;
  todaysTasks : list Task;
  isLoading : bool;
  isGenerating : bool;
  generationParams : GenerationParams.t
}.

Definition initialState : PageState := {|
  roadmap := None;
  currentWeek := 1;
  todaysTasks := [];
  isLoading := true;
  isGenerating := false;
  generationParams := {|
    GenerationParams.duration_weeks := Num 12;
    GenerationParams.daily_commitment := "2 hours";
    GenerationParams.target_company := EmptyString;
    GenerationParams.target_role := EmptyString
  |}
|}.

(** What a handler does to the outside world, in order. *)
Inductive Effect :=
| Sent (request : HttpRequest)
| ToastSuccess (message : string)
| ToastError (message : string)
| ConsoleError (context : string).

(** ** Handlers: state, exceptions and a log

    A handler reads the backend oracle, transforms the page state and
    returns [None] when it throws.  State written before a throw stays
    written, as with React setters. *)

Definition Handler (A : Type) : Type :=
  Server -> PageState -> option A * PageState * list Effect.

Definition ret {A} (a : A) : Handler A :=
  fun _ st => (Some a, st, []).

Definition bind {A B} (m : Handler A) (f : A -> Handler B) : Handler B :=
  fun srv st =>
    match m srv st with
    | (Some a, st', log) =>
        let '(b, st'', log') := f a srv st' in (b, st'', log ++ log')
    | (None, st', log) => (None, st', log)
    end.

Definition throw {A} : Handler A :=
  fun _ st => (None, st, []).

Definition try_catch {A} (body : Handler A) (handler : Handler A) : Handler A :=
  fun srv st =>
    match body srv st with
    | (Some a, st', log) => (Some a, st', log)
    | (None, st', log) =>
        let '(b, st'', log') := handler srv st' in (b, st'', log ++ log')
    end.

Definition finally {A} (body : Handler A) (cleanup : Handler unit) : Handler A :=
  fun srv st =>
    let '(a, st', log) := body srv st in
    match cleanup srv st' with
    | (Some _, st'', log') => (a, st'', log ++ log')
    | (None, st'', log') => (None, st'', log ++ log')
    end.

Definition get_state : Handler PageState :=
  fun _ st => (Some st, st, []).

Definition set_state (f : PageState -> PageState) : Handler unit :=
  fun _ st => (Some tt, f st, []).

Definition emit (e : Effect) : Handler unit :=
  fun _ st => (Some tt, st, [e]).

(** [await roadmapAPI.f(...)]: the request goes out, a rejection throws. *)
Definition await {R} (call : roadmapAPI R) : Handler R :=
  fun srv st => (srv R call, st, [Sent (request_of call)]).

Declare Scope handler_scope.
Delimit Scope handler_scope with handler.
Bind Scope handler_scope with Handler.
Notation "'let*' x ':=' m 'in' k" := (bind m (fun x => k))
  (at level 10, x name, m at level 100, k at level 200) : handler_scope.
Notation "m ;; k" := (bind m (fun _ => k))
  (at level 100, k at level 200, right associativity) : handler_scope.

(** The React setters.  [with_x v st] is the state after [x] is set to [v];
    a setter takes the updater function, as in [setX(prev => ...)], and
    [setX(v)] is the constant updater. *)

Definition with_roadmap (v : option Roadmap) (st : PageState) : PageState := {|
  roadmap := v;
  currentWeek := currentWeek st;
  todaysTasks := todaysTasks st;
  isLoading := isLoading st;
  isGenerating := isGenerating st;
  generationParams := generationParams st |}.

Definition with_currentWeek (v : Z) (st : PageState) : PageState := {|
  roadmap := roadmap st;
  currentWeek := v;
  todaysTasks := todaysTasks st;
  isLoading := isLoading st;
  isGenerating := isGenerating st;
  generationParams := generationParams st |}.

Definition with_todaysTasks (v : list Task) (st : PageState) : PageState := {|
  roadmap := roadmap st;
  currentWeek := currentWeek st;
  todaysTasks := v;
  isLoading := isLoading st;
  isGenerating := isGenerating st;
  generationParams := generationParams st |}.

Definition with_isLoading (v : bool) (st : PageState) : PageState := {|
  roadmap := roadmap st;
  currentWeek := currentWeek st;
  todaysTasks := todaysTasks st;
  isLoading := v;
  isGenerating := isGenerating st;
  generationParams := generationParams st |}.

Definition with_isGenerating (v : bool) (st : PageState) : PageState := {|
  roadmap := roadmap st;
  currentWeek := currentWeek st;
  todaysTasks := todaysTasks st;
  isLoading := isLoading st;
  isGenerating := v;
  generationParams := generationParams st |}.

Definition with_generationParams
    (v : GenerationParams.t) (st : PageState) : PageState := {|
  roadmap := roadmap st;
  currentWeek := currentWeek st;
  todaysTasks := todaysTasks st;
  isLoading := isLoading st;
  isGenerating := isGenerating st;
  generationParams := v |}.

Definition setRoadmap (f : option Roadmap -> option Roadmap) : Handler unit :=
  set_state (fun st => with_roadmap (f (roadmap st)) st).

Definition setCurrentWeek (f : Z -> Z) : Handler unit :=
  set_state (fun st => with_currentWeek (f (currentWeek st)) st).

Definition setTodaysTasks (f : list Task -> list Task) : Handler unit :=
  set_state (fun st => with_todaysTasks (f (todaysTasks st)) st).

Definition setIsLoading (f : bool -> bool) : Handler unit :=
  set_state (fun st => with_isLoading (f (isLoading st)) st).

Definition setIsGenerating (f : bool -> bool) : Handler unit :=
  set_state (fun st => with_isGenerating (f (isGenerating st)) st).

Definition setGenerationParams
    (f : GenerationParams.t -> GenerationParams.t) : Handler unit :=
  set_state (fun st => with_generationParams (f (generationParams st)) st).

(** What a run of a handler leaves behind. *)
Definition state_of {A} (out : option A * PageState * list Effect) : PageState :=
  snd (fst out).
Definition log_of {A} (out : option A * PageState * list Effect) : list Effect :=
  snd out.

(** ** The handlers of [RoadmapPage] *)

(** [{ ...task, completed: true }] *)
Definition with_completed_true (task : Task) : Task := {|
  task_id := task_id task;
  title := title task;
  description := description task;
  resource_type := resource_type task;
  resource_url := resource_url task;
  duration_minutes := duration_minutes task;
  completed := true
|}.

(** The updater that [completeTask] hands to [setTodaysTasks]. *)
Definition markCompleted (taskId : string) (prev : list Task) : list Task :=
  (fun task =>
     if String.eqb (task_id task) taskId then with_completed_true task else task)
  <$> prev.

Definition completeTask (taskId : string) : Handler unit :=
  (let* st := get_state in
   match roadmap st with
   | None => ret tt
   | Some r =>
       try_catch
         (let* _ := await (updateProgress (roadmap_id r) taskId) in
          setTodaysTasks (markCompleted taskId) ;;
          emit (ToastSuccess "Task completed!"))
         (emit (ToastError "Failed to update progress") ;;
          emit (ConsoleError EmptyString))
   end)%handler.

Section WithUser.

(** [const { user } = useStore()] *)
Variable user : option User.t.

Definition loadRoadmap : Handler unit :=
  (setIsLoading (fun _ => true) ;;
   finally
     (try_catch
        (let* response := await (getActive (student_id_or_demo user)) in
         match response with
         | Some data =>
             setRoadmap (fun _ => Some data) ;;
             setCurrentWeek (fun _ => or_number (current_week data) 1) ;;
             let* tasksResponse := await (getTodaysTasks (roadmap_id data)) in
             match tasksResponse with
             | Some tasksData =>
                 setTodaysTasks
                   (fun _ => default [] (TodaysTasks.tasks tasksData))
             | None => throw
             end
         | None => ret tt
         end)
        (emit (ConsoleError "No active roadmap:")))
     (setIsLoading (fun _ => false)))%handler.

(** The object literal passed to [roadmapAPI.generate]. *)
Definition generatePayload (params : GenerationParams.t) : JsObject :=
  [ ("student_id", JString (student_id_or_demo user));
    ("duration_weeks", JNumber (GenerationParams.duration_weeks params));
    ("daily_commitment", JString (GenerationParams.daily_commitment params));
    ("company_id", or_undefined (GenerationParams.target_company params)) ].

Definition generateRoadmap : Handler unit :=
  (setIsGenerating (fun _ => true) ;;
   finally
     (try_catch
        (let* st := get_state in
         let* response :=
           await (generate (generatePayload (generationParams st))) in
         setRoadmap (fun _ => response) ;;
         setCurrentWeek (fun _ => 1) ;;
         emit (ToastSuccess "Roadmap generated successfully!"))
        (emit (ToastError "Failed to generate roadmap") ;;
         emit (ConsoleError EmptyString)))
     (setIsGenerating (fun _ => false)))%handler.

End WithUser.

(** ** Rendering and events

    The component renders one of three screens.  The controls of a screen
    that is not rendered, and disabled buttons, fire no handler. *)

(** The [<option>]s of the duration selector and their [value]. *)
Inductive DurationOption := Intensive | Standard | Comprehensive | Relaxed.

Definition duration_value (o : DurationOption) : Z :=
  match o with
  | Intensive => 4
  | Standard => 8
  | Comprehensive => 12
  | Relaxed => 16
  end.

(** A numeric [value] attribute reaches [e.target.value] in decimal. *)
Definition dom_value (n : Z) : string := pretty n.

Inductive CommitmentOption := OneHour | TwoHours | ThreeHours | FourHours.

Definition commitment_value (o : CommitmentOption) : string :=
  match o with
  | OneHour => "1 hour"
  | TwoHours => "2 hours"
  | ThreeHours => "3 hours"
  | FourHours => "4 hours"
  end.

Inductive Event :=
| SelectDuration (o : DurationOption)
| SelectCommitment (o : CommitmentOption)
| TypeTargetCompany (value : string)
| TypeTargetRole (value : string)
| ClickGenerate
| ClickTask (index : nat)
| ClickPreviousWeek
| ClickNextWeek.

(** [{ ...prev, field: v }] for each field of the form. *)
Definition with_duration_weeks (v : number) (prev : GenerationParams.t) := {|
  GenerationParams.duration_weeks := v;
  GenerationParams.daily_commitment := GenerationParams.daily_commitment prev;
  GenerationParams.target_company := GenerationParams.target_company prev;
  GenerationParams.target_role := GenerationParams.target_role prev |}.

Definition with_daily_commitment (v : string) (prev : GenerationParams.t) := {|
  GenerationParams.duration_weeks := GenerationParams.duration_weeks prev;
  GenerationParams.daily_commitment := v;
  GenerationParams.target_company := GenerationParams.target_company prev;
  GenerationParams.target_role := GenerationParams.target_role prev |}.

Definition with_target_company (v : string) (prev : GenerationParams.t) := {|
  GenerationParams.duration_weeks := GenerationParams.duration_weeks prev;
  GenerationParams.daily_commitment := GenerationParams.daily_commitment prev;
  GenerationParams.target_company := v;
  GenerationParams.target_role := GenerationParams.target_role prev |}.

Definition with_target_role (v : string) (prev : GenerationParams.t) := {|
  GenerationParams.duration_weeks := GenerationParams.duration_weeks prev;
  GenerationParams.daily_commitment := GenerationParams.daily_commitment prev;
  GenerationParams.target_company := GenerationParams.target_company prev;
  GenerationParams.target_role := v |}.

(** The updaters of the two week buttons. *)
Definition previousWeek (prev : Z) : Z := Z.max 1 (prev - 1).
Definition nextWeek (r : Roadmap) (prev : Z) : Z :=
  Z.min (duration_weeks r) (prev + 1).

(** [roadmap.progress || 0], shown as "Overall Progress", as "% Complete"
    and as the width of the progress bar. *)
Definition overallProgress (r : Roadmap) : Z := or_number (progress r) 0.

Inductive Screen :=
| Spinner
| GenerationForm (params : GenerationParams.t) (generateDisabled : bool)
| RoadmapView (progressPercent : Z) (weekShown weekCount : Z)
              (taskRows : list Task) (previousDisabled nextDisabled : bool).

Definition render (st : PageState) : Screen :=
  if isLoading st then Spinner
  else
    match roadmap st with
    | None => GenerationForm (generationParams st) (isGenerating st)
    | Some r =>
        RoadmapView (overallProgress r) (currentWeek st) (duration_weeks r)
                    (todaysTasks st)
                    (currentWeek st =? 1)
                    (currentWeek st =? duration_weeks r)
    end.

Section Page.

Variable user : option User.t.

Definition handle (e : Event) : Handler unit :=
  (let* st := get_state in
   if isLoading st then ret tt
   else
     match roadmap st, e with
     | None, SelectDuration o =>
         setGenerationParams
           (with_duration_weeks (parseInt (dom_value (duration_value o))))
     | None, SelectCommitment o =>
         setGenerationParams (with_daily_commitment (commitment_value o))
     | None, TypeTargetCompany value =>
         setGenerationParams (with_target_company value)
     | None, TypeTargetRole value =>
         setGenerationParams (with_target_role value)
     | None, ClickGenerate =>
         if isGenerating st then ret tt else generateRoadmap user
     | Some _, ClickTask index =>
         match todaysTasks st !! index with
         | Some task =>
             if completed task then ret tt else completeTask (task_id task)
         | None => ret tt
         end
     | Some _, ClickPreviousWeek =>
         if currentWeek st =? 1 then ret tt
         else setCurrentWeek previousWeek
     | Some r, ClickNextWeek =>
         if currentWeek st =? duration_weeks r then ret tt
         else setCurrentWeek (nextWeek r)
     | _, _ => ret tt
     end)%handler.

(** A session: the mount effect runs [loadRoadmap] once, then events
    arrive, each answered by the backend of its moment. *)

Fixpoint play (events : list (Server * Event)) (st : PageState)
  : PageState * list Effect :=
  match events with
  | [] => (st, [])
  | (srv, e) :: rest =>
      let out := handle e srv st in
      let '(st', log') := play rest (state_of out) in
      (st', log_of out ++ log')
  end.

Definition session (srv0 : Server) (events : list (Server * Event))
  : PageState * list Effect :=
  let out := loadRoadmap user srv0 initialState in
  let '(st', log') := play events (state_of out) in
  (st', log_of out ++ log').

End Page.

(** The number of tasks of a roadmap, over all its weeks and days. *)
Definition task_count (r : Roadmap) : nat :=
  sum_list ((fun w => sum_list ((fun d => length (tasks d)) <$> days w)) <$> weeks r).

(** ** Fixtures *)

Definition sql_video : Task := {|
  task_id := "t1"; title := "Joins"; description := "Inner and outer joins";
  resource_type := "video"; resource_url := Some "https://example.org/joins";
  duration_minutes := 45; completed := false |}.

Definition sql_practice : Task := {|
  task_id := "t2"; title := "Queries"; description := "Write ten queries";
  resource_type := "practice"; resource_url := None;
  duration_minutes := 60; completed := true |}.

Definition rest_day (n : Z) : DayPlan :=
  {| day := n; date := EmptyString; tasks := []; focus_area := "rest" |}.

Definition rest_week (n : Z) : WeekPlan := {|
  week := n; theme := "rest";
  days := rest_day <$> [0; 1; 2; 3; 4; 5; 6];
  milestone := EmptyString |}.

(** A four-week roadmap with an empty backlog, as the backend may send it:
    [current_week] and [progress] are parameters. *)
Definition rest_roadmap (cw p : option Z) : Roadmap := {|
  roadmap_id := "r1"; student_id := "demo_user";
  target_company := None; target_role := None;
  duration_weeks := 4; current_week := cw; progress := p;
  weeks := rest_week <$> [1; 2; 3; 4];
  created_at := "2024-01-01" |}.

(** A backend that resolves every call, serving roadmap [r] and [today]. *)
Definition serving (r : Roadmap) (today : list Task) : Server :=
  fun R call =>
    match call in roadmapAPI R return option R with
    | generate _ => Some (Some r)
    | getActive _ => Some (Some r)
    | getTodaysTasks _ => Some (Some {| TodaysTasks.tasks := Some today |})
    | updateProgress _ _ => Some tt
    end.

(** A backend that rejects every call. *)
Definition offline : Server := fun R _ => None.

Definition backend : Server :=
  serving (rest_roadmap (Some 2) (Some 50)) [sql_video; sql_practice].

(** The page after mount against [backend], for the anonymous user. *)
Definition loaded : PageState :=
  state_of (loadRoadmap None backend initialState).

(** Displayed-week invariant of the roadmap screen. *)
Definition week_in_bounds (st : PageState) : Prop :=
  match roadmap st with
  | Some r => 1 <= currentWeek st <= duration_weeks r
  | None => True
  end.

(** The durations the engine supports. *)
Definition duration_supported (n : number) : bool :=
  match n with
  | Num z => (z =? 4) || (z =? 8) || (z =? 12) || (z =? 16)
  | NaN => false
  end.

(** ** The handlers, run

    Closed forms of the handlers, proved equal to them below. *)

(** The three ways [completeTask] can go. *)
Variant completeTask_outcome (taskId : string) (srv : Server) (st : PageState)
  : option unit * PageState * list Effect -> Prop :=
| CompleteSkipped :
    roadmap st = None ->
    completeTask_outcome taskId srv st (Some tt, st, [])
| CompleteRejected r :
    roadmap st = Some r ->
    srv unit (updateProgress (roadmap_id r) taskId) = None ->
    completeTask_outcome taskId srv st
      (Some tt, st,
       [Sent (request_of (updateProgress (roadmap_id r) taskId));
        ToastError "Failed to update progress"; ConsoleError EmptyString])
| CompleteResolved r :
    roadmap st = Some r ->
    srv unit (updateProgress (roadmap_id r) taskId) = Some tt ->
    completeTask_outcome taskId srv st
      (Some tt, with_todaysTasks (markCompleted taskId (todaysTasks st)) st,
       [Sent (request_of (updateProgress (roadmap_id r) taskId));
        ToastSuccess "Task completed!"]).

(** The state in which [loadRoadmap] leaves the page, by what the backend
    answered to the two requests. *)
Definition loadRoadmap_state (user : option User.t) (srv : Server)
    (st : PageState) : PageState :=
  let loading := with_isLoading true st in
  match srv _ (getActive (student_id_or_demo user)) with
  | Some (Some data) =>
      let shown :=
        with_currentWeek (or_number (current_week data) 1)
          (with_roadmap (Some data) loading) in
      match srv _ (getTodaysTasks (roadmap_id data)) with
      | Some (Some tasksData) =>
          with_isLoading false
            (with_todaysTasks (default [] (TodaysTasks.tasks tasksData)) shown)
      | _ => with_isLoading false shown
      end
  | _ => with_isLoading false loading
  end.

(** [handle] without the plumbing: which handler an event reaches. *)
Definition dispatch (user : option User.t) (e : Event) (srv : Server)
    (st : PageState) : option unit * PageState * list Effect :=
  if isLoading st then (Some tt, st, [])
  else
    match roadmap st, e with
    | None, SelectDuration o =>
        (Some tt,
         with_generationParams
           (with_duration_weeks (parseInt (dom_value (duration_value o)))
              (generationParams st)) st, [])
    | None, SelectCommitment o =>
        (Some tt,
         with_generationParams
           (with_daily_commitment (commitment_value o) (generationParams st)) st,
         [])
    | None, TypeTargetCompany value =>
        (Some tt,
         with_generationParams
           (with_target_company value (generationParams st)) st, [])
    | None, TypeTargetRole value =>
        (Some tt,
         with_generationParams
           (with_target_role value (generationParams st)) st, [])
    | None, ClickGenerate =>
        if isGenerating st then (Some tt, st, []) else generateRoadmap user srv st
    | Some _, ClickTask index =>
        match todaysTasks st !! index with
        | Some task =>
            if completed task then (Some tt, st, [])
            else completeTask (task_id task) srv st
        | None => (Some tt, st, [])
        end
    | Some _, ClickPreviousWeek =>
        if currentWeek st =? 1 then (Some tt, st, [])
        else (Some tt, with_currentWeek (previousWeek (currentWeek st)) st, [])
    | Some r, ClickNextWeek =>
        if currentWeek st =? duration_weeks r then (Some tt, st, [])
        else (Some tt, with_currentWeek (nextWeek r (currentWeek st)) st, [])
    | _, _ => (Some tt, st, [])
    end.

(** A generation request with a supported duration; other effects pass. *)
Definition supported_generate_request (e : Effect) : Prop :=
  forall data,
    e = Sent (POST "/roadmap/generate" data) ->
    exists z,
      js_get "duration_weeks" data = Some (JNumber (Num z)) /\
      In z [4; 8; 12; 16].

(** The form state after the target role is typed. *)
Definition with_role (value : string) (st : PageState) : PageState :=
  with_generationParams (with_target_role value (generationParams st)) st.

(** ** The weekly view of the roadmap screen *)

(** [roadmap.weeks?.find(w => w.week === currentWeek)] *)
Definition weekData (r : Roadmap) (shown : Z) : option WeekPlan :=
  List.find (fun w => week w =? shown) (weeks r).

(** [weekData?.theme || 'Loading...'], the text after "Week n: ". *)
Definition weekTheme (r : Roadmap) (shown : Z) : string :=
  match weekData r shown with
  | Some w =>
      match theme w with
      | EmptyString => "Loading..."
      | s => s
      end
  | None => "Loading..."
  end.

(** [weekData?.milestone && ...]: the banner is there for a non-empty
    milestone. *)
Definition milestoneBanner (r : Roadmap) (shown : Z) : option string :=
  match weekData r shown with
  | Some w =>
      match milestone w with
      | EmptyString => None
      | s => Some s
      end
  | None => None
  end.

Definition dayLabels : list string :=
  ["Mon"; "Tue"; "Wed"; "Thu"; "Fri"; "Sat"; "Sun"].

(** One cell of the grid.  The bar and the "done/total" text are rendered
    when [totalTasks > 0]; the width of the bar is the ratio of the two
    counts. *)
Record DayCell := {
  cellLabel : string;
  cellFocus : string;
  completedTasks : nat;
  totalTasks : nat;
  barShown : bool
}.

Definition dayCell (w : WeekPlan) (index : nat) (label : string) : DayCell :=
  let dayPlan := days w !! index in
  let done :=
    from_option (fun d => length (List.filter completed (tasks d))) 0%nat dayPlan in
  let total := from_option (fun d => length (tasks d)) 0%nat dayPlan in
  {| cellLabel := label;
     cellFocus :=
       match focus_area <$> dayPlan with
       | Some (String c s) => String c s
       | _ => "Rest"
       end;
     completedTasks := done;
     totalTasks := total;
     barShown := (0 <? total)%nat |}.

(** [weekData?.days && (... ['Mon', ...].map((day, index) => ...))] *)
Definition weekGrid (r : Roadmap) (shown : Z) : option (list DayCell) :=
  (fun w => imap (dayCell w) dayLabels) <$> weekData r shown.

(** What the weekly card shows. *)
Definition weekCard (st : PageState) : option (string * option string * option (list DayCell)) :=
  (fun r =>
     (weekTheme r (currentWeek st), milestoneBanner r (currentWeek st),
      weekGrid r (currentWeek st)))
  <$> roadmap st.

(** ** The icon of a task ([getResourceIcon]) *)

Inductive Icon :=
| VideoCameraIcon
| BookOpenIcon
| CodeBracketIcon
| AcademicCapIcon.

(** [toLowerCase] on the letters A-Z; other bytes are kept.  (No other
    character lower-cases to a letter of the three names matched below.) *)
Definition lower_ascii (c : ascii) : ascii :=
  let n := nat_of_ascii c in
  if ((65 <=? n) && (n <=? 90))%nat then ascii_of_nat (n + 32) else c.

Fixpoint toLowerCase (s : string) : string :=
  match s with
  | EmptyString => EmptyString
  | String c s' => String (lower_ascii c) (toLowerCase s')
  end.

Definition getResourceIcon (type : string) : Icon :=
  let lowered := toLowerCase type in
  if String.eqb lowered "video" then VideoCameraIcon
  else if String.eqb lowered "article" then BookOpenIcon
  else if String.eqb lowered "practice" then CodeBracketIcon
  else AcademicCapIcon.

(** Two strings that differ in the case of ASCII letters only. *)
Fixpoint same_ignoring_case (s1 s2 : string) : bool :=
  match s1, s2 with
  | EmptyString, EmptyString => true
  | String c1 s1', String c2 s2' =>
      Ascii.eqb (lower_ascii c1) (lower_ascii c2) && same_ignoring_case s1' s2'
  | _, _ => false
  end.

(** ** The store (lib/store.ts) *)

Module Profile.
Record t := {
  student_id : string;
  name : string;
  email : string;
  skills : list string;
  technical_skills : list string;
  soft_skills : list string;
  communication : string;
  job_interest : list string;
  preferred_roles : list string;
  coding_scores : gmap string Z;
  aptitude_scores : gmap string Z;
  academic_marks : gmap string Z;
  readiness_score : Z;
  resume_parsed : bool
}.
End Profile.

Module Store.

Record AppState := {
  user : option User.t;
  profile : option Profile.t;
  token : option string;
  isLoading : bool
}.

Definition initial : AppState :=
  {| user := None; profile := None; token := None; isLoading := false |}.

(** The actions; each is [set] with a partial state, merged over the old. *)
Definition setUser (u : option User.t) (s : AppState) : AppState :=
  {| user := u; profile := profile s; token := token s; isLoading := isLoading s |}.

Definition setProfile (p : option Profile.t) (s : AppState) : AppState :=
  {| user := user s; profile := p; token := token s; isLoading := isLoading s |}.

Definition setToken (t : option string) (s : AppState) : AppState :=
  {| user := user s; profile := profile s; token := t; isLoading := isLoading s |}.

Definition setLoading (b : bool) (s : AppState) : AppState :=
  {| user := user s; profile := profile s; token := token s; isLoading := b |}.

Definition logout (s : AppState) : AppState :=
  {| user := None; profile := None; token := None; isLoading := isLoading s |}.

(** [partialize]: what is written to storage. *)
Definition partialize (s : AppState) : option string * option User.t :=
  (token s, user s).

Inductive Action :=
| SetUser (u : option User.t)
| SetProfile (p : option Profile.t)
| SetToken (t : option string)
| SetLoading (b : bool)
| Logout.

Definition act (s : AppState) (a : Action) : AppState :=
  match a with
  | SetUser u => setUser u s
  | SetProfile p => setProfile p s
  | SetToken t => setToken t s
  | SetLoading b => setLoading b s
  | Logout => logout s
  end.

Definition run (actions : list Action) (s : AppState) : AppState :=
  foldl act s actions.

(** The last [SetLoading] of a sequence, if any. *)
Definition last_loading (actions : list Action) (b0 : bool) : bool :=
  foldl (fun b a => match a with SetLoading b' => b' | _ => b end) b0 actions.

End Store.

(** ** Decoding a request

    The call a request of the page stands for, as a value that does not
    depend on the response type. *)
Inductive Call :=
| CallGenerate (data : JsObject)
| CallGetActive (studentId : string)
| CallGetTodaysTasks (roadmapId : string)
| CallUpdateProgress (roadmapId taskId : string).

Definition call_of {R} (call : roadmapAPI R) : Call :=
  match call with
  | generate data => CallGenerate data
  | getActive studentId => CallGetActive studentId
  | getTodaysTasks roadmapId => CallGetTodaysTasks roadmapId
  | updateProgress roadmapId taskId => CallUpdateProgress roadmapId taskId
  end.

Fixpoint last_char (s : string) : option ascii :=
  match s with
  | EmptyString => None
  | String c EmptyString => Some c
  | String _ s' => last_char s'
  end.

(** The requests a log contains, in order. *)
Definition requests (log : list Effect) : list HttpRequest :=
  omap (fun e => match e with Sent request => Some request | _ => None end) log.

(** A task list that differs from another by completions only. *)
Definition completions_only (before after : list Task) : Prop :=
  Forall2 (fun t t' => t' = t \/ t' = with_completed_true t) before after.

(** ** Decimal strings *)



(** * Properties *)

(** ** What one run of each handler does *)

Ltac run_handler :=
  unfold bind, try_catch, finally, ret, throw, emit, await, get_state,
    setRoadmap, setCurrentWeek, setTodaysTasks, setIsLoading,
    setIsGenerating, setGenerationParams, set_state, state_of, log_of;
  cbn.

Lemma completeTask_no_roadmap taskId (srv : Server) st :
  roadmap st = None -> completeTask taskId srv st = (Some tt, st, []).
Proof.
  intros Hnone. unfold completeTask. run_handler. now rewrite Hnone.
Qed.

Lemma completeTask_rejected taskId (srv : Server) st r :
  roadmap st = Some r ->
  srv unit (updateProgress (roadmap_id r) taskId) = None ->
  completeTask taskId srv st =
    (Some tt, st,
     [Sent (request_of (updateProgress (roadmap_id r) taskId));
      ToastError "Failed to update progress"; ConsoleError EmptyString]).
Proof.
  intros Hr Hsrv. unfold completeTask. run_handler.
  rewrite Hr. cbn. now rewrite Hsrv.
Qed.

Lemma completeTask_resolved taskId (srv : Server) st r u :
  roadmap st = Some r ->
  srv unit (updateProgress (roadmap_id r) taskId) = Some u ->
  completeTask taskId srv st =
    (Some tt, with_todaysTasks (markCompleted taskId (todaysTasks st)) st,
     [Sent (request_of (updateProgress (roadmap_id r) taskId));
      ToastSuccess "Task completed!"]).
Proof.
  intros Hr Hsrv. unfold completeTask. run_handler.
  rewrite Hr. cbn. now rewrite Hsrv.
Qed.

Lemma completeTask_cases taskId (srv : Server) st :
  completeTask_outcome taskId srv st (completeTask taskId srv st).
Proof.
  destruct (roadmap st) as [r|] eqn:Hr.
  - destruct (srv unit (updateProgress (roadmap_id r) taskId)) as [[]|] eqn:Hsrv.
    + rewrite (completeTask_resolved _ _ _ _ _ Hr Hsrv). now apply CompleteResolved.
    + rewrite (completeTask_rejected _ _ _ _ Hr Hsrv). now apply CompleteRejected.
  - rewrite (completeTask_no_roadmap _ _ _ Hr). now apply CompleteSkipped.
Qed.

Lemma generateRoadmap_run user (srv : Server) st :
  generateRoadmap user srv st =
    let call := generate (generatePayload user (generationParams st)) in
    match srv _ call with
    | Some response =>
        (Some tt,
         with_isGenerating false
           (with_currentWeek 1 (with_roadmap response (with_isGenerating true st))),
         [Sent (request_of call);
          ToastSuccess "Roadmap generated successfully!"])
    | None =>
        (Some tt, with_isGenerating false (with_isGenerating true st),
         [Sent (request_of call);
          ToastError "Failed to generate roadmap"; ConsoleError EmptyString])
    end.
Proof.
  unfold generateRoadmap. run_handler.
  now destruct (srv _ (generate (generatePayload user (generationParams st)))).
Qed.

Lemma loadRoadmap_run user (srv : Server) st :
  state_of (loadRoadmap user srv st) = loadRoadmap_state user srv st.
Proof.
  unfold loadRoadmap, loadRoadmap_state. run_handler.
  destruct (srv _ (getActive (student_id_or_demo user))) as [[data|]|];
    cbn; try reflexivity.
  destruct (srv _ (getTodaysTasks (roadmap_id data))) as [[tasksData|]|];
    reflexivity.
Qed.

Lemma loadRoadmap_sends_gets user (srv : Server) st request :
  In (Sent request) (log_of (loadRoadmap user srv st)) ->
  exists url, request = GET url.
Proof.
  unfold loadRoadmap. run_handler.
  destruct (srv _ (getActive (student_id_or_demo user))) as [[data|]|]; cbn.
  - destruct (srv _ (getTodaysTasks (roadmap_id data))) as [[tasksData|]|]; cbn;
      intros Hin; repeat (destruct Hin as [Heq|Hin]; [inversion Heq; eauto|]);
      contradiction.
  - intros [Heq|[]]. inversion Heq; eauto.
  - intros [Heq|[Heq|[]]]; inversion Heq; eauto.
Qed.

Lemma handle_dispatch user e (srv : Server) st :
  handle user e srv st = dispatch user e srv st.
Proof.
  unfold dispatch.
  cbv beta iota delta [handle bind get_state ret].
  destruct (isLoading st); [reflexivity|].
  destruct (roadmap st) as [r|], e; try reflexivity.
  - destruct (todaysTasks st !! index) as [task|]; [|reflexivity].
    destruct (completed task); [reflexivity|].
    now destruct (completeTask (task_id task) srv st) as [[? ?] ?].
  - now destruct (currentWeek st =? 1).
  - now destruct (currentWeek st =? duration_weeks r).
  - destruct (isGenerating st); [reflexivity|].
    now destruct (generateRoadmap user srv st) as [[? ?] ?].
Qed.

(** ** The updater of [completeTask] *)

Lemma with_completed_true_id task :
  completed task = true -> with_completed_true task = task.
Proof. destruct task; cbn; now intros ->. Qed.

Lemma markCompleted_lookup taskId prev i :
  markCompleted taskId prev !! i =
    (fun task =>
       if String.eqb (task_id task) taskId then with_completed_true task else task)
    <$> prev !! i.
Proof. unfold markCompleted. apply list_lookup_fmap. Qed.

Lemma markCompleted_length taskId prev :
  length (markCompleted taskId prev) = length prev.
Proof. unfold markCompleted. apply length_fmap. Qed.

Lemma markCompleted_idempotent taskId prev :
  markCompleted taskId (markCompleted taskId prev) = markCompleted taskId prev.
Proof.
  unfold markCompleted. induction prev as [|task prev IH]; [reflexivity|].
  cbn. f_equal; [|exact IH].
  destruct (String.eqb (task_id task) taskId) eqn:Heq; cbn; now rewrite Heq.
Qed.

Lemma markCompleted_keeps_completed taskId prev i task :
  prev !! i = Some task -> completed task = true ->
  markCompleted taskId prev !! i = Some task.
Proof.
  intros Hi Hdone. rewrite markCompleted_lookup, Hi. cbn.
  destruct (String.eqb (task_id task) taskId);
    [now rewrite with_completed_true_id|reflexivity].
Qed.

(** ** Completion of a task *)

(** C1.  Recording a completion is idempotent: for every task list and
    task id, the state update of [completeTask] applied twice gives the list
    it gives applied once, and a second [completeTask] against the same
    backend leaves the whole page state as the first one left it. *)
Theorem completeTask_idempotent :
  (forall taskId prev,
      markCompleted taskId (markCompleted taskId prev) =
      markCompleted taskId prev) /\
  (forall taskId (srv : Server) st,
      state_of (completeTask taskId srv (state_of (completeTask taskId srv st))) =
      state_of (completeTask taskId srv st)).
Proof.
  split; [exact markCompleted_idempotent|].
  intros taskId srv st.
  destruct (completeTask_cases taskId srv st) as [Hnone | r Hr Hsrv | r Hr Hsrv];
    unfold state_of at 2 3; cbn [fst snd].
  - now rewrite completeTask_no_roadmap.
  - now rewrite (completeTask_rejected _ _ _ _ Hr Hsrv).
  - rewrite (completeTask_resolved taskId srv _ r tt); [|exact Hr|exact Hsrv].
    unfold state_of, with_todaysTasks;
      cbn [fst snd roadmap currentWeek todaysTasks isLoading isGenerating
           generationParams].
    now rewrite markCompleted_idempotent.
Qed.

(** C4.  The state update of [completeTask] keeps the length and the order
    of the list; at every position the task keeps every field but
    [completed], a task with another id is untouched, and a task with the
    given id is completed.  The handler leaves the loaded roadmap (so its
    [progress] and [current_week]), the displayed week and the rest of the
    page state as they were. *)
Theorem completeTask_frame :
  (forall taskId prev,
      length (markCompleted taskId prev) = length prev /\
      forall i task,
        prev !! i = Some task ->
        exists task',
          markCompleted taskId prev !! i = Some task' /\
          task_id task' = task_id task /\
          title task' = title task /\
          description task' = description task /\
          resource_type task' = resource_type task /\
          resource_url task' = resource_url task /\
          duration_minutes task' = duration_minutes task /\
          (task_id task <> taskId -> task' = task) /\
          (task_id task = taskId -> completed task' = true)) /\
  (forall taskId (srv : Server) st,
      let st' := state_of (completeTask taskId srv st) in
      roadmap st' = roadmap st /\
      currentWeek st' = currentWeek st /\
      isLoading st' = isLoading st /\
      isGenerating st' = isGenerating st /\
      generationParams st' = generationParams st).
Proof.
  split.
  - intros taskId prev. split; [apply markCompleted_length|].
    intros i task Hi. rewrite markCompleted_lookup, Hi. cbn.
    destruct (String.eqb_spec (task_id task) taskId) as [Heq|Hne].
    + exists (with_completed_true task). cbn. repeat split; congruence.
    + exists task. repeat split; congruence.
  - intros taskId srv st.
    destruct (completeTask_cases taskId srv st); cbn; repeat split.
Qed.

(** C10.  [completeTask] is atomic for the local state.  Without a loaded
    roadmap nothing is sent and nothing changes; when the request is
    rejected the page state is the one before the call; and the task list
    differs from the one before only if the request, sent first, resolved. *)
Theorem completeTask_atomic :
  (forall taskId (srv : Server) st,
      roadmap st = None ->
      completeTask taskId srv st = (Some tt, st, [])) /\
  (forall taskId (srv : Server) st r,
      roadmap st = Some r ->
      srv unit (updateProgress (roadmap_id r) taskId) = None ->
      state_of (completeTask taskId srv st) = st /\
      log_of (completeTask taskId srv st) =
        [Sent (request_of (updateProgress (roadmap_id r) taskId));
         ToastError "Failed to update progress"; ConsoleError EmptyString]) /\
  (forall taskId (srv : Server) st,
      todaysTasks (state_of (completeTask taskId srv st)) <> todaysTasks st ->
      exists r rest,
        roadmap st = Some r /\
        srv unit (updateProgress (roadmap_id r) taskId) = Some tt /\
        log_of (completeTask taskId srv st) =
          Sent (request_of (updateProgress (roadmap_id r) taskId)) :: rest).
Proof.
  split; [|split].
  - intros taskId srv st. apply completeTask_no_roadmap.
  - intros taskId srv st r Hr Hsrv.
    now rewrite (completeTask_rejected _ _ _ _ Hr Hsrv).
  - intros taskId srv st Hchanged.
    destruct (completeTask_cases taskId srv st) as [Hnone | r Hr Hsrv | r Hr Hsrv];
      cbn in Hchanged; try congruence.
    exists r. eexists. repeat split; [exact Hr|exact Hsrv].
Qed.

(** C8.  The completion request carries the body [{task_id: taskId}] and
    nothing else, so no timestamp; and every request that [completeTask]
    sends is such a request for the task it was called with. *)
Theorem updateProgress_body :
  (forall roadmapId taskId,
      request_of (updateProgress roadmapId taskId) =
        POST ("/roadmap/" +:+ roadmapId +:+ "/progress")
             [("task_id", JString taskId)] /\
      js_get "timestamp" [("task_id", JString taskId)] = None) /\
  (forall taskId (srv : Server) st request,
      In (Sent request) (log_of (completeTask taskId srv st)) ->
      exists roadmapId,
        roadmap_id <$> roadmap st = Some roadmapId /\
        request = POST ("/roadmap/" +:+ roadmapId +:+ "/progress")
                       [("task_id", JString taskId)]).
Proof.
  split; [intros; split; reflexivity|].
  intros taskId srv st request Hin.
  destruct (completeTask_cases taskId srv st) as [Hnone | r Hr Hsrv | r Hr Hsrv];
    cbn in Hin.
  - contradiction.
  - destruct Hin as [Heq|[Heq|[Heq|[]]]]; try discriminate.
    exists (roadmap_id r). rewrite Hr. split; [reflexivity|congruence].
  - destruct Hin as [Heq|[Heq|[]]]; try discriminate.
    exists (roadmap_id r). rewrite Hr. split; [reflexivity|congruence].
Qed.

(** ** Events and sessions *)

Lemma play_app user events1 events2 st :
  fst (play user (events1 ++ events2) st) =
  fst (play user events2 (fst (play user events1 st))).
Proof.
  revert st. induction events1 as [|[srv e] events1 IH]; intros st; cbn.
  - reflexivity.
  - specialize (IH (state_of (handle user e srv st))).
    destruct (play user (events1 ++ events2) _) as [st2 log2].
    destruct (play user events1 _) as [st1 log1]. exact IH.
Qed.

Lemma session_app user srv0 events1 events2 :
  fst (session user srv0 (events1 ++ events2)) =
  fst (play user events2 (fst (session user srv0 events1))).
Proof.
  unfold session. cbv zeta.
  pose proof (play_app user events1 events2
                (state_of (loadRoadmap user srv0 initialState))) as Happ.
  destruct (play user (events1 ++ events2) _) as [st2 log2].
  destruct (play user events1 _) as [st1 log1]. exact Happ.
Qed.

Lemma handle_keeps_completed user e (srv : Server) st i task :
  todaysTasks st !! i = Some task -> completed task = true ->
  todaysTasks (state_of (handle user e srv st)) !! i = Some task.
Proof.
  intros Hi Hdone. rewrite handle_dispatch. unfold dispatch.
  destruct (isLoading st); [exact Hi|].
  destruct (roadmap st) as [r|] eqn:Hr, e; try exact Hi.
  - destruct (todaysTasks st !! index) as [clicked|]; [|exact Hi].
    destruct (completed clicked); [exact Hi|].
    destruct (completeTask_cases (task_id clicked) srv st); try exact Hi.
    now apply markCompleted_keeps_completed.
  - now destruct (currentWeek st =? 1).
  - now destruct (currentWeek st =? duration_weeks r).
  - destruct (isGenerating st); [exact Hi|].
    rewrite generateRoadmap_run. cbv zeta.
    now destruct (srv _ (generate _)).
Qed.

Lemma play_keeps_completed user events st i task :
  todaysTasks st !! i = Some task -> completed task = true ->
  todaysTasks (fst (play user events st)) !! i = Some task.
Proof.
  revert st. induction events as [|[srv e] events IH]; intros st Hi Hdone; cbn.
  - exact Hi.
  - specialize (IH _ (handle_keeps_completed user e srv st i task Hi Hdone) Hdone).
    now destruct (play user events _) as [st' log'].
Qed.

(** C3.  Completion is one way.  The state update of [completeTask] leaves
    a completed task as it is; a click on the check box of a completed task
    runs no handler, sends nothing and changes nothing; and in a session
    (mount, which starts from an empty task list, then any events against
    any backend) a task that is shown completed stays at its position,
    completed, whatever events follow. *)
Theorem completion_one_way :
  (forall taskId prev i task,
      prev !! i = Some task -> completed task = true ->
      markCompleted taskId prev !! i = Some task) /\
  (forall user (srv : Server) st index task,
      todaysTasks st !! index = Some task -> completed task = true ->
      handle user (ClickTask index) srv st = (Some tt, st, [])) /\
  todaysTasks initialState = [] /\
  (forall user srv0 events later i task,
      todaysTasks (fst (session user srv0 events)) !! i = Some task ->
      completed task = true ->
      todaysTasks (fst (session user srv0 (events ++ later))) !! i = Some task).
Proof.
  split; [exact markCompleted_keeps_completed|].
  split; [|split; [reflexivity|]].
  - intros user srv st index task Hi Hdone.
    rewrite handle_dispatch. unfold dispatch.
    destruct (isLoading st); [reflexivity|].
    destruct (roadmap st); [|reflexivity].
    now rewrite Hi, Hdone.
  - intros user srv0 events later i task Hi Hdone.
    rewrite session_app. now apply play_keeps_completed.
Qed.

(** ** The displayed week *)

Lemma previousWeek_in_bounds r week :
  1 <= week <= duration_weeks r -> 1 <= previousWeek week <= duration_weeks r.
Proof. unfold previousWeek. lia. Qed.

Lemma nextWeek_in_bounds r week :
  1 <= week <= duration_weeks r -> 1 <= nextWeek r week <= duration_weeks r.
Proof. unfold nextWeek. lia. Qed.

(** C2, as the code has it.  The two week buttons keep the displayed week
    within [1, duration_weeks].  [loadRoadmap] displays the week the backend
    sent ([1] when it sent none or [0]) without clamping it: the displayed
    week is within bounds after a load provided the served roadmap has
    [1 <= current_week || 1 <= duration_weeks]. *)
Theorem currentWeek_in_bounds :
  (forall user e (srv : Server) st,
      e = ClickPreviousWeek \/ e = ClickNextWeek ->
      week_in_bounds st ->
      week_in_bounds (state_of (handle user e srv st))) /\
  (forall user (srv : Server) st,
      (forall data,
          srv _ (getActive (student_id_or_demo user)) = Some (Some data) ->
          1 <= or_number (current_week data) 1 <= duration_weeks data) ->
      week_in_bounds st ->
      week_in_bounds (state_of (loadRoadmap user srv st))).
Proof.
  split.
  - intros user e srv st He Hst. rewrite handle_dispatch. unfold dispatch.
    destruct (isLoading st); [exact Hst|].
    unfold week_in_bounds in *.
    destruct (roadmap st) as [r|] eqn:Hr; destruct He as [-> | ->];
      try (cbn; now rewrite Hr).
    + destruct (currentWeek st =? 1); cbn; rewrite Hr;
        [exact Hst|now apply previousWeek_in_bounds].
    + destruct (currentWeek st =? duration_weeks r); cbn; rewrite Hr;
        [exact Hst|now apply nextWeek_in_bounds].
  - intros user srv st Hserved Hst. rewrite loadRoadmap_run.
    unfold loadRoadmap_state. cbv zeta.
    destruct (srv _ (getActive (student_id_or_demo user))) as [[data|]|];
      try exact Hst.
    specialize (Hserved data eq_refl).
    now destruct (srv _ (getTodaysTasks (roadmap_id data))) as [[tasksData|]|].
Qed.

(** C2 as stated fails: a served roadmap of four weeks whose [current_week]
    is 9 is displayed as week 9 of 4. *)
Lemma loadRoadmap_week_out_of_bounds :
  let served := rest_roadmap (Some 9) (Some 0) in
  let st := state_of (loadRoadmap None (serving served []) initialState) in
  week_in_bounds initialState /\
  render st = RoadmapView 0 9 4 [] false false /\
  ~ week_in_bounds st.
Proof.
  cbv zeta. split; [exact I|]. split; [reflexivity|].
  unfold week_in_bounds. cbn. lia.
Qed.

Lemma currentWeek_in_bounds_witness :
  week_in_bounds (state_of (handle None ClickNextWeek offline loaded)) /\
  week_in_bounds
    (state_of (loadRoadmap None (serving (rest_roadmap None None) []) loaded)).
Proof.
  split.
  - apply (proj1 currentWeek_in_bounds); [now right|].
    unfold week_in_bounds; cbn; lia.
  - apply (proj2 currentWeek_in_bounds).
    + intros data Hdata. cbn in Hdata. inversion Hdata. cbn. lia.
    + unfold week_in_bounds; cbn; lia.
Defined.

(** ** Generation *)

Lemma parseInt_duration_value o :
  parseInt (dom_value (duration_value o)) = Num (duration_value o).
Proof. destruct o; reflexivity. Qed.

Lemma duration_value_supported o :
  duration_supported (Num (duration_value o)) = true.
Proof. destruct o; reflexivity. Qed.

Lemma duration_supported_enumerated n :
  duration_supported n = true -> exists z, n = Num z /\ In z [4; 8; 12; 16].
Proof.
  destruct n as [z|]; [|discriminate]. cbn. intros Hz. exists z.
  split; [reflexivity|]. cbn. lia.
Qed.

Lemma string_length_app (s1 s2 : string) :
  String.length (s1 +:+ s2) = (String.length s1 + String.length s2)%nat.
Proof.
  induction s1 as [|c s1 IH]; [reflexivity|].
  change (String c s1 +:+ s2) with (String c (s1 +:+ s2)).
  cbn. now rewrite IH.
Qed.

(** A progress URL is never the generation URL. *)
Lemma progress_url_not_generate roadmapId :
  "/roadmap/" +:+ roadmapId +:+ "/progress" <> "/roadmap/generate".
Proof.
  intros Heq. apply (f_equal String.length) in Heq.
  rewrite !string_length_app in Heq. cbn in Heq. lia.
Qed.

Lemma generateRoadmap_supported user (srv : Server) st :
  duration_supported (GenerationParams.duration_weeks (generationParams st)) = true ->
  Forall supported_generate_request (log_of (generateRoadmap user srv st)).
Proof.
  intros Hok. rewrite generateRoadmap_run. cbv zeta.
  assert (supported_generate_request
            (Sent (request_of
                     (generate (generatePayload user (generationParams st))))))
    as Hsent.
  { intros data Heq. cbn in Heq. injection Heq as <-. cbn.
    destruct (duration_supported_enumerated _ Hok) as (z & -> & Hz). eauto. }
  destruct (srv _ (generate _)); cbn;
    repeat (constructor; [first [exact Hsent|intros data Heq; discriminate]|]);
    constructor.
Qed.

Lemma completeTask_supported taskId (srv : Server) st :
  Forall supported_generate_request (log_of (completeTask taskId srv st)).
Proof.
  assert (forall r,
             supported_generate_request
               (Sent (request_of (updateProgress (roadmap_id r) taskId))))
    as Hsent.
  { intros r data Heq. destruct (progress_url_not_generate (roadmap_id r)).
    exact (f_equal (fun e => match e with
                             | Sent (POST url _) => url
                             | _ => EmptyString
                             end) Heq). }
  destruct (completeTask_cases taskId srv st); cbn;
    repeat (constructor; [first [apply Hsent|intros data Heq; discriminate]|]);
    constructor.
Qed.

Lemma handle_supported user e (srv : Server) st :
  let duration st := GenerationParams.duration_weeks (generationParams st) in
  duration_supported (duration st) = true ->
  duration_supported (duration (state_of (handle user e srv st))) = true /\
  Forall supported_generate_request (log_of (handle user e srv st)).
Proof.
  cbv zeta. intros Hok. rewrite handle_dispatch. unfold dispatch.
  destruct (isLoading st); [now split|].
  destruct (roadmap st) as [r|], e; try (now split).
  - destruct (todaysTasks st !! index) as [task|]; [|now split].
    destruct (completed task); [now split|].
    split; [|apply completeTask_supported].
    now destruct (completeTask_cases (task_id task) srv st).
  - now destruct (currentWeek st =? 1).
  - now destruct (currentWeek st =? duration_weeks r).
  - cbn. rewrite parseInt_duration_value.
    split; [apply duration_value_supported|constructor].
  - destruct (isGenerating st); [now split|].
    split; [|now apply generateRoadmap_supported].
    rewrite generateRoadmap_run. cbv zeta.
    now destruct (srv _ (generate _)).
Qed.

Lemma play_supported user events st :
  duration_supported (GenerationParams.duration_weeks (generationParams st)) = true ->
  Forall supported_generate_request (snd (play user events st)).
Proof.
  revert st. induction events as [|[srv e] events IH]; intros st Hok; cbn.
  - constructor.
  - destruct (handle_supported user e srv st Hok) as [Hok' Hlog].
    specialize (IH _ Hok').
    destruct (play user events _) as [st' log']. cbn in *.
    apply Forall_app. now split.
Qed.

(** C5.  Every generation request has a duration of 4, 8, 12 or 16 weeks:
    the selector has these four options and [parseInt] reads each back, the
    form starts at 12, [generateRoadmap] sends the form's value as it is, and
    so in every session every request to [/roadmap/generate] carries one of
    the four. *)
Theorem generate_duration_enumerated :
  (forall o,
      In (duration_value o) [4; 8; 12; 16] /\
      parseInt (dom_value (duration_value o)) = Num (duration_value o)) /\
  duration_value <$> [Intensive; Standard; Comprehensive; Relaxed] = [4; 8; 12; 16] /\
  GenerationParams.duration_weeks (generationParams initialState) = Num 12 /\
  (forall user (srv : Server) st,
      exists data rest,
        log_of (generateRoadmap user srv st) =
          Sent (POST "/roadmap/generate" data) :: rest /\
        js_get "duration_weeks" data =
          Some (JNumber (GenerationParams.duration_weeks (generationParams st)))) /\
  (forall user srv0 events,
      Forall supported_generate_request (snd (session user srv0 events))).
Proof.
  split; [|split; [reflexivity|split; [reflexivity|split]]].
  - intros o. split; [|apply parseInt_duration_value].
    destruct o; cbn; tauto.
  - intros user srv st. rewrite generateRoadmap_run. cbv zeta.
    destruct (srv _ (generate _)); cbn; eauto.
  - intros user srv0 events. unfold session. cbv zeta.
    pose proof (play_supported user events
                  (state_of (loadRoadmap user srv0 initialState))) as Hplay.
    destruct (play user events _) as [st' log']. cbn [snd] in *.
    apply Forall_app. split.
    + apply Forall_forall. intros eff Hin data ->.
      apply list_elem_of_In, loadRoadmap_sends_gets in Hin as [url Hurl].
      discriminate.
    + apply Hplay. rewrite loadRoadmap_run. unfold loadRoadmap_state. cbv zeta.
      destruct (srv0 _ (getActive _)) as [[served|]|]; try reflexivity.
      now destruct (srv0 _ (getTodaysTasks _)) as [[tasksData|]|].
Qed.

(** C7.  When the generation request resolves, the displayed week is 1 and
    the roadmap is the one received, whatever week was displayed before. *)
Theorem generateRoadmap_resets_week user (srv : Server) st response :
  srv _ (generate (generatePayload user (generationParams st))) = Some response ->
  currentWeek (state_of (generateRoadmap user srv st)) = 1 /\
  roadmap (state_of (generateRoadmap user srv st)) = response.
Proof.
  intros Hsrv. rewrite generateRoadmap_run. cbv zeta. now rewrite Hsrv.
Qed.

Lemma generateRoadmap_resets_week_witness :
  let srv := serving (rest_roadmap (Some 3) None) [] in
  let st := with_currentWeek 7 (with_roadmap None loaded) in
  currentWeek st = 7 /\
  currentWeek (state_of (generateRoadmap None srv st)) = 1 /\
  roadmap (state_of (generateRoadmap None srv st)) =
    Some (rest_roadmap (Some 3) None).
Proof.
  cbv zeta. split; [reflexivity|].
  apply generateRoadmap_resets_week. reflexivity.
Defined.

(** C9.  The target role does not reach the backend.  The payload of the
    generation request has the keys [student_id], [duration_weeks],
    [daily_commitment] and [company_id] and no [target_role]; two page
    states that differ in the typed role only make [generateRoadmap] send and
    show the same, and end in states that again differ in the role only. *)
Theorem target_role_not_sent :
  (forall user params,
      js_keys (generatePayload user params) =
        ["student_id"; "duration_weeks"; "daily_commitment"; "company_id"] /\
      js_get "target_role" (generatePayload user params) = None) /\
  (forall user (srv : Server) st role1 role2,
      log_of (generateRoadmap user srv (with_role role1 st)) =
      log_of (generateRoadmap user srv (with_role role2 st)) /\
      with_role role2 (state_of (generateRoadmap user srv (with_role role1 st))) =
      state_of (generateRoadmap user srv (with_role role2 st))).
Proof.
  split; [intros; split; reflexivity|].
  intros user srv st role1 role2. rewrite !generateRoadmap_run. cbv zeta.
  change (generatePayload user (generationParams (with_role role1 st)))
    with (generatePayload user (generationParams (with_role role2 st))).
  now destruct (srv _ (generate _)).
Qed.

(** ** The progress shown *)

Lemma or_number_zero x : or_number x 0 = default 0 x.
Proof. destruct x as [v|]; cbn; [|reflexivity]. destruct (Z.eqb_spec v 0); lia. Qed.

(** C6, as the code has it.  The page derives nothing from the tasks: the
    roadmap screen shows the [progress] field as served, and 0 when it is
    absent.  So it shows 100 exactly when the backend served 100, and for a
    roadmap without tasks whose progress is absent or 0 it shows 0. *)
Theorem overallProgress_as_served :
  (forall r,
      overallProgress r = default 0 (progress r) /\
      (overallProgress r = 100 <-> progress r = Some 100)) /\
  (forall st r,
      isLoading st = false -> roadmap st = Some r ->
      exists previousDisabled nextDisabled,
        render st =
          RoadmapView (default 0 (progress r)) (currentWeek st)
                      (duration_weeks r) (todaysTasks st)
                      previousDisabled nextDisabled) /\
  (forall r,
      task_count r = 0%nat ->
      progress r = None \/ progress r = Some 0 ->
      overallProgress r = 0).
Proof.
  split; [|split].
  - intros r. unfold overallProgress. rewrite or_number_zero.
    split; [reflexivity|].
    destruct (progress r) as [v|]; cbn; split; intros Hv;
      try discriminate; congruence.
  - intros st r Hloading Hr. unfold render. rewrite Hloading, Hr.
    unfold overallProgress. rewrite or_number_zero. eauto.
  - intros r _ [Hp|Hp]; unfold overallProgress; now rewrite Hp.
Qed.

(** C6 as stated fails: the four-week roadmap of rest days has no task and
    no [progress], and the page shows 0%, not 100%. *)
Lemma empty_roadmap_shows_zero :
  let r := rest_roadmap (Some 1) None in
  let st := state_of (loadRoadmap None (serving r []) initialState) in
  task_count r = 0%nat /\
  progress r = None /\
  render st = RoadmapView 0 1 4 [] true false /\
  overallProgress r <> 100.
Proof. cbv zeta. repeat split; try reflexivity. discriminate. Qed.

Lemma overallProgress_as_served_witness :
  let r := rest_roadmap (Some 1) (Some 0) in
  let st := state_of (loadRoadmap None (serving r []) initialState) in
  (exists previousDisabled nextDisabled,
      render st =
        RoadmapView (default 0 (progress r)) (currentWeek st)
                    (duration_weeks r) (todaysTasks st)
                    previousDisabled nextDisabled) /\
  overallProgress r = 0.
Proof.
  cbv zeta. split.
  - apply (proj1 (proj2 overallProgress_as_served)); reflexivity.
  - apply (proj2 (proj2 overallProgress_as_served)); [reflexivity|now right].
Defined.

(** ** The claims at concrete inputs *)

Example parseInt_examples :
  parseInt "12" = Num 12 /\ parseInt " -0x1f" = Num (-31) /\
  parseInt "16px" = Num 16 /\ parseInt "weeks" = NaN.
Proof. repeat split. Qed.

Example loaded_page :
  currentWeek loaded = 2 /\ isLoading loaded = false /\
  todaysTasks loaded = [sql_video; sql_practice] /\
  render loaded = RoadmapView 50 2 4 [sql_video; sql_practice] false false.
Proof. repeat split. Qed.

Example offline_session :
  session None offline
    [(offline, SelectDuration Relaxed); (offline, TypeTargetRole "Data Scientist");
     (offline, ClickGenerate)] =
  (with_generationParams
     {| GenerationParams.duration_weeks := Num 16;
        GenerationParams.daily_commitment := "2 hours";
        GenerationParams.target_company := EmptyString;
        GenerationParams.target_role := "Data Scientist" |}
     (with_isLoading false initialState),
   [Sent (GET "/roadmap/student/demo_user/active");
    ConsoleError "No active roadmap:";
    Sent (POST "/roadmap/generate"
            [("student_id", JString "demo_user");
             ("duration_weeks", JNumber (Num 16));
             ("daily_commitment", JString "2 hours");
             ("company_id", JUndefined)]);
    ToastError "Failed to generate roadmap"; ConsoleError EmptyString]).
Proof. reflexivity. Qed.

Lemma generate_duration_enumerated_witness :
  let events := [(offline, SelectDuration Relaxed); (backend, ClickGenerate)] in
  let data :=
    [("student_id", JString "demo_user");
     ("duration_weeks", JNumber (Num 16));
     ("daily_commitment", JString "2 hours");
     ("company_id", JUndefined)] in
  In (Sent (POST "/roadmap/generate" data)) (snd (session None offline events)) /\
  exists z,
    js_get "duration_weeks" data = Some (JNumber (Num z)) /\ In z [4; 8; 12; 16].
Proof.
  cbv zeta. split; [right; right; left; reflexivity|].
  destruct generate_duration_enumerated as (_ & _ & _ & _ & Hsession).
  specialize (Hsession None offline
                [(offline, SelectDuration Relaxed); (backend, ClickGenerate)]).
  rewrite Forall_forall in Hsession.
  eapply Hsession; [|reflexivity].
  apply list_elem_of_In. right; right; left; reflexivity.
Defined.

Lemma completion_one_way_witness :
  markCompleted "t2" [sql_video; sql_practice] !! 1%nat = Some sql_practice /\
  handle None (ClickTask 1) backend loaded = (Some tt, loaded, []) /\
  todaysTasks
    (fst (session None backend
            ([(backend, ClickTask 0%nat)] ++
             [(offline, ClickTask 0%nat); (backend, ClickNextWeek);
              (backend, ClickTask 1%nat)]))) !! 0%nat =
    Some (with_completed_true sql_video).
Proof.
  destruct completion_one_way as (Hupdate & Hclick & _ & Hsession).
  split; [|split].
  - apply Hupdate; reflexivity.
  - apply (Hclick None backend loaded 1%nat sql_practice); reflexivity.
  - apply Hsession; reflexivity.
Defined.

Lemma completeTask_frame_witness :
  exists task',
    markCompleted "t1" [sql_video; sql_practice] !! 0%nat = Some task' /\
    task_id task' = "t1" /\ title task' = "Joins" /\
    duration_minutes task' = 45 /\ completed task' = true.
Proof.
  destruct (proj2 (proj1 completeTask_frame "t1" [sql_video; sql_practice])
              0%nat sql_video eq_refl)
    as (task' & Hlookup & Hid & Htitle & _ & _ & _ & Hminutes & _ & Hdone).
  exists task'. repeat split; try assumption. now apply Hdone.
Defined.

Lemma completeTask_atomic_witness :
  completeTask "t1" backend initialState = (Some tt, initialState, []) /\
  state_of (completeTask "t1" offline loaded) = loaded /\
  exists r rest,
    roadmap loaded = Some r /\
    backend unit (updateProgress (roadmap_id r) "t1") = Some tt /\
    log_of (completeTask "t1" backend loaded) =
      Sent (request_of (updateProgress (roadmap_id r) "t1")) :: rest.
Proof.
  destruct completeTask_atomic as (Hnone & Hrejected & Hchanged).
  split; [|split].
  - apply Hnone; reflexivity.
  - eapply Hrejected; reflexivity.
  - apply Hchanged. discriminate.
Defined.

Lemma updateProgress_body_witness :
  exists roadmapId,
    roadmap_id <$> roadmap loaded = Some roadmapId /\
    POST "/roadmap/r1/progress" [("task_id", JString "t1")] =
      POST ("/roadmap/" +:+ roadmapId +:+ "/progress") [("task_id", JString "t1")].
Proof.
  apply (proj2 updateProgress_body "t1" backend loaded). left. reflexivity.
Defined.

(** * Further properties of the page *)

(** ** Loading *)

(** X1.  [loadRoadmap] never throws and always ends with the spinner off,
    whatever the backend answers; it does not touch the form or the
    generating flag. *)
Theorem loadRoadmap_settles user (srv : Server) st :
  fst (fst (loadRoadmap user srv st)) = Some tt /\
  isLoading (state_of (loadRoadmap user srv st)) = false /\
  isGenerating (state_of (loadRoadmap user srv st)) = isGenerating st /\
  generationParams (state_of (loadRoadmap user srv st)) = generationParams st.
Proof.
  unfold loadRoadmap. run_handler.
  destruct (srv _ (getActive (student_id_or_demo user))) as [[data|]|]; cbn;
    try (repeat split; reflexivity).
  destruct (srv _ (getTodaysTasks (roadmap_id data))) as [[tasksData|]|]; cbn;
    repeat split; reflexivity.
Qed.

Lemma loadRoadmap_requests user (srv : Server) st :
  requests (log_of (loadRoadmap user srv st)) =
    GET ("/roadmap/student/" +:+ student_id_or_demo user +:+ "/active") ::
    match srv _ (getActive (student_id_or_demo user)) with
    | Some (Some data) => [GET ("/roadmap/" +:+ roadmap_id data +:+ "/today")]
    | _ => []
    end.
Proof.
  unfold loadRoadmap. run_handler.
  destruct (srv _ (getActive (student_id_or_demo user))) as [[data|]|]; cbn;
    try reflexivity.
  destruct (srv _ (getTodaysTasks (roadmap_id data))) as [[tasksData|]|];
    reflexivity.
Qed.

(** X2.  When the backend has no active roadmap for the student (the request
    is rejected, or resolves without data), [loadRoadmap] sends that one
    request only and leaves the roadmap, the displayed week and the task
    list as they were. *)
Theorem loadRoadmap_without_roadmap user (srv : Server) st :
  srv _ (getActive (student_id_or_demo user)) = None \/
  srv _ (getActive (student_id_or_demo user)) = Some None ->
  let st' := state_of (loadRoadmap user srv st) in
  roadmap st' = roadmap st /\
  currentWeek st' = currentWeek st /\
  todaysTasks st' = todaysTasks st /\
  requests (log_of (loadRoadmap user srv st)) =
    [GET ("/roadmap/student/" +:+ student_id_or_demo user +:+ "/active")].
Proof.
  intros Hsrv. cbv zeta. rewrite loadRoadmap_requests, loadRoadmap_run.
  unfold loadRoadmap_state. cbv zeta.
  destruct Hsrv as [-> | ->]; repeat split; reflexivity.
Qed.

Lemma loadRoadmap_without_roadmap_witness :
  let st' := state_of (loadRoadmap None offline loaded) in
  roadmap st' = roadmap loaded /\
  currentWeek st' = 2 /\
  todaysTasks st' = [sql_video; sql_practice] /\
  requests (log_of (loadRoadmap None offline loaded)) =
    [GET "/roadmap/student/demo_user/active"].
Proof.
  apply (loadRoadmap_without_roadmap None offline loaded). left. reflexivity.
Defined.

(** X3.  [loadRoadmap] is not all-or-nothing.  Once the active roadmap has
    arrived it is shown, with its week, even if the request for today's
    tasks then fails (rejected, or no data): in that case the task list is
    the old one and the failure goes to the console only.  When both
    requests resolve, the task list is replaced by the served tasks, or by
    the empty list when the answer has none.  The second request is
    addressed to the served roadmap's id. *)
Theorem loadRoadmap_with_roadmap user (srv : Server) st data :
  srv _ (getActive (student_id_or_demo user)) = Some (Some data) ->
  let out := loadRoadmap user srv st in
  roadmap (state_of out) = Some data /\
  currentWeek (state_of out) = or_number (current_week data) 1 /\
  requests (log_of out) =
    [GET ("/roadmap/student/" +:+ student_id_or_demo user +:+ "/active");
     GET ("/roadmap/" +:+ roadmap_id data +:+ "/today")] /\
  match srv _ (getTodaysTasks (roadmap_id data)) with
  | Some (Some tasksData) =>
      todaysTasks (state_of out) = default [] (TodaysTasks.tasks tasksData) /\
      Forall (fun e => exists request, e = Sent request) (log_of out)
  | _ =>
      todaysTasks (state_of out) = todaysTasks st /\
      In (ConsoleError "No active roadmap:") (log_of out)
  end.
Proof.
  intros Hsrv. cbv zeta. rewrite loadRoadmap_requests, loadRoadmap_run.
  unfold loadRoadmap_state. cbv zeta. rewrite Hsrv.
  unfold loadRoadmap. run_handler. rewrite Hsrv. cbn.
  destruct (srv _ (getTodaysTasks (roadmap_id data))) as [[tasksData|]|]; cbn;
    repeat split; eauto 10.
Qed.

Lemma loadRoadmap_with_roadmap_witness :
  let today_down : Server :=
    fun R call =>
      match call in roadmapAPI R return option R with
      | getActive _ => Some (Some (rest_roadmap (Some 3) None))
      | _ => None
      end in
  let out := loadRoadmap None today_down loaded in
  roadmap (state_of out) = Some (rest_roadmap (Some 3) None) /\
  currentWeek (state_of out) = 3 /\
  todaysTasks (state_of out) = [sql_video; sql_practice] /\
  In (ConsoleError "No active roadmap:") (log_of out).
Proof.
  cbv zeta.
  match goal with
  | |- context [loadRoadmap None ?srv loaded] =>
      destruct (loadRoadmap_with_roadmap None srv loaded
                  (rest_roadmap (Some 3) None) eq_refl)
        as (Hroadmap & Hweek & _ & Htasks)
  end.
  cbn in Htasks. destruct Htasks as [Htasks Hlog].
  repeat split; assumption.
Defined.

(** ** Generating *)

(** X4.  [generateRoadmap] never throws, sends exactly one request, ends
    with the button enabled again and never touches today's tasks, the
    spinner or the form.  When the request is rejected the roadmap and the
    displayed week stay as they were and the error toast is shown; when it
    resolves the success toast is shown, also when the answer has no data. *)
Theorem generateRoadmap_settles user (srv : Server) st :
  let out := generateRoadmap user srv st in
  let call := generate (generatePayload user (generationParams st)) in
  fst (fst out) = Some tt /\
  requests (log_of out) = [request_of call] /\
  isGenerating (state_of out) = false /\
  todaysTasks (state_of out) = todaysTasks st /\
  isLoading (state_of out) = isLoading st /\
  generationParams (state_of out) = generationParams st /\
  match srv _ call with
  | Some response =>
      In (ToastSuccess "Roadmap generated successfully!") (log_of out)
  | None =>
      roadmap (state_of out) = roadmap st /\
      currentWeek (state_of out) = currentWeek st /\
      In (ToastError "Failed to generate roadmap") (log_of out)
  end.
Proof.
  cbv zeta. rewrite generateRoadmap_run. cbv zeta.
  destruct (srv _ (generate _)); cbn; repeat split; auto.
Qed.

(** ** Invariants of a session *)





Lemma handle_with_roadmap user e (srv : Server) st r :
  roadmap st = Some r ->
  let out := handle user e srv st in
  roadmap (state_of out) = Some r /\
  generationParams (state_of out) = generationParams st /\
  Forall (fun request =>
            exists taskId,
              request = request_of (updateProgress (roadmap_id r) taskId))
         (requests (log_of out)).
Proof.
  intros Hr. cbv zeta. rewrite handle_dispatch. unfold dispatch. rewrite Hr.
  assert (roadmap (state_of (Some tt, st, @nil Effect)) = Some r /\
          generationParams (state_of (Some tt, st, @nil Effect)) =
            generationParams st /\
          Forall (fun request =>
                    exists taskId,
                      request = request_of (updateProgress (roadmap_id r) taskId))
                 (requests (log_of (Some tt, st, @nil Effect)))) as Hidle.
  { cbn. repeat split; [exact Hr|constructor]. }
  destruct (isLoading st); [exact Hidle|].
  destruct e; try exact Hidle.
  - destruct (todaysTasks st !! index) as [task|]; [|exact Hidle].
    destruct (completed task); [exact Hidle|].
    destruct (completeTask_cases (task_id task) srv st)
      as [Hnone | r' Hr' Hsrv | r' Hr' Hsrv]; [exact Hidle|..];
      rewrite Hr in Hr'; injection Hr' as <-; cbn;
      (split; [exact Hr|split; [reflexivity|]]);
      repeat constructor; eauto.
  - destruct (currentWeek st =? 1); [exact Hidle|].
    cbn. repeat split; [exact Hr|constructor].
  - destruct (currentWeek st =? duration_weeks r); [exact Hidle|].
    cbn. repeat split; [exact Hr|constructor].
Qed.

(** X6.  Once a roadmap is on screen the page offers no way to replace it:
    whatever events follow, against any backends, the roadmap object (hence
    the progress percentage, the week count and the weekly counts drawn from
    it) and the form stay the same, and every request sent is a completion
    request for that roadmap; in particular no generation request. *)
Theorem roadmap_never_replaced user events st r :
  roadmap st = Some r ->
  let out := play user events st in
  roadmap (fst out) = Some r /\
  generationParams (fst out) = generationParams st /\
  Forall (fun request =>
            exists taskId,
              request = POST ("/roadmap/" +:+ roadmap_id r +:+ "/progress")
                             [("task_id", JString taskId)])
         (requests (snd out)).
Proof.
  revert st. induction events as [|[srv e] events IH]; intros st Hr; cbn.
  - repeat split; [exact Hr|constructor].
  - destruct (handle_with_roadmap user e srv st r Hr) as (Hr' & Hparams & Hlog).
    specialize (IH _ Hr').
    destruct (play user events _) as [st' log']. cbn in *.
    destruct IH as (IHr & IHparams & IHlog).
    split; [exact IHr|]. split; [congruence|].
    unfold requests in *. rewrite omap_app. apply Forall_app. now split.
Qed.

Lemma roadmap_never_replaced_witness :
  let out :=
    play None [(backend, ClickGenerate); (backend, ClickTask 0%nat);
               (offline, SelectDuration Intensive)] loaded in
  roadmap (fst out) = roadmap loaded /\
  generationParams (fst out) = generationParams loaded /\
  Forall (fun request =>
            exists taskId,
              request = POST ("/roadmap/" +:+ "r1" +:+ "/progress")
                             [("task_id", JString taskId)])
         (requests (snd out)).
Proof.
  cbv zeta.
  now apply (roadmap_never_replaced None _ loaded
               (rest_roadmap (Some 2) (Some 50))).
Defined.

Lemma completions_only_refl tasks : completions_only tasks tasks.
Proof. apply Forall2_same_length_lookup_2; [reflexivity|]. intros; left; congruence. Qed.

Lemma completions_only_mark taskId tasks :
  completions_only tasks (markCompleted taskId tasks).
Proof.
  unfold completions_only, markCompleted.
  induction tasks as [|task tasks IH]; cbn; constructor; [|exact IH].
  destruct (String.eqb (task_id task) taskId); auto.
Qed.

Lemma completions_only_trans tasks1 tasks2 tasks3 :
  completions_only tasks1 tasks2 -> completions_only tasks2 tasks3 ->
  completions_only tasks1 tasks3.
Proof.
  unfold completions_only. intros H12. revert tasks3.
  induction H12 as [|t1 t2 l1 l2 Ht H12 IH]; intros tasks3 H23;
    inversion H23 as [|? t3 ? l3 Ht' H23']; subst; constructor; [|now apply IH].
  destruct Ht as [-> | ->], Ht' as [-> | ->]; auto.
Qed.

Lemma handle_completions_only user e (srv : Server) st :
  completions_only (todaysTasks st) (todaysTasks (state_of (handle user e srv st))).
Proof.
  rewrite handle_dispatch. unfold dispatch.
  destruct (isLoading st); [apply completions_only_refl|].
  destruct (roadmap st) as [r|], e; try apply completions_only_refl.
  - destruct (todaysTasks st !! index) as [task|]; [|apply completions_only_refl].
    destruct (completed task); [apply completions_only_refl|].
    destruct (completeTask_cases (task_id task) srv st);
      [apply completions_only_refl..|apply completions_only_mark].
  - destruct (currentWeek st =? 1); apply completions_only_refl.
  - destruct (currentWeek st =? duration_weeks r); apply completions_only_refl.
  - destruct (isGenerating st); [apply completions_only_refl|].
    rewrite generateRoadmap_run. cbv zeta.
    destruct (srv _ (generate _)); apply completions_only_refl.
Qed.

Lemma completions_only_ids before after :
  completions_only before after -> task_id <$> after = task_id <$> before.
Proof.
  induction 1 as [|t t' l l' Ht _ IH]; [reflexivity|].
  cbn. f_equal; [|exact IH]. now destruct Ht as [-> | ->].
Qed.

(** X7.  Events never add, remove, reorder or rewrite tasks.  After any
    events, against any backends, the task list has the tasks it had, in
    the same order, each one either untouched or turned completed; so the
    ids shown are those that the mount effect loaded.  A page that mounted
    without a roadmap keeps an empty list of today's tasks, also after a
    roadmap is generated. *)
Theorem tasks_only_complete user :
  (forall events st,
      let after := todaysTasks (fst (play user events st)) in
      completions_only (todaysTasks st) after /\
      task_id <$> after = task_id <$> todaysTasks st) /\
  (forall srv0 events,
      roadmap (state_of (loadRoadmap user srv0 initialState)) = None ->
      todaysTasks (fst (session user srv0 events)) = []).
Proof.
  assert (forall events st,
             completions_only (todaysTasks st)
               (todaysTasks (fst (play user events st)))) as Hplay.
  { induction events as [|[srv e] events IH]; intros st; cbn.
    - apply completions_only_refl.
    - specialize (IH (state_of (handle user e srv st))).
      destruct (play user events _) as [st' log']. cbn in *.
      eapply completions_only_trans; [apply handle_completions_only|exact IH]. }
  split.
  - intros events st. cbv zeta. split; [apply Hplay|].
    apply completions_only_ids, Hplay.
  - intros srv0 events Hnone.
    assert (todaysTasks (state_of (loadRoadmap user srv0 initialState)) = [])
      as Hempty.
    { rewrite loadRoadmap_run in *. unfold loadRoadmap_state in *.
      cbv zeta in *.
      destruct (srv0 _ (getActive _)) as [[data|]|]; try reflexivity.
      destruct (srv0 _ (getTodaysTasks _)) as [[tasksData|]|];
        cbn in Hnone; discriminate Hnone. }
    unfold session. cbv zeta.
    specialize (Hplay events (state_of (loadRoadmap user srv0 initialState))).
    destruct (play user events _) as [st' log']. cbn [fst] in *.
    rewrite Hempty in Hplay. now inversion Hplay.
Qed.

Lemma tasks_only_complete_witness :
  let generated := serving (rest_roadmap (Some 1) None) [sql_video] in
  let no_roadmap : Server :=
    fun R call =>
      match call in roadmapAPI R return option R with
      | getActive _ => Some None
      | _ => None
      end in
  let st := fst (session None no_roadmap [(generated, ClickGenerate)]) in
  roadmap st = Some (rest_roadmap (Some 1) None) /\ todaysTasks st = [].
Proof.
  cbv zeta. split; [reflexivity|].
  apply (proj2 (tasks_only_complete None)). reflexivity.
Defined.

(** ** Week navigation *)

Lemma with_currentWeek_same st : with_currentWeek (currentWeek st) st = st.
Proof. now destruct st. Qed.

Lemma handle_next_week user (srv : Server) st r :
  isLoading st = false -> roadmap st = Some r ->
  handle user ClickNextWeek srv st =
    (Some tt,
     if currentWeek st =? duration_weeks r then st
     else with_currentWeek (nextWeek r (currentWeek st)) st,
     []).
Proof.
  intros Hloading Hr. rewrite handle_dispatch. unfold dispatch.
  rewrite Hloading, Hr. now destruct (currentWeek st =? duration_weeks r).
Qed.

Lemma handle_previous_week user (srv : Server) st r :
  isLoading st = false -> roadmap st = Some r ->
  handle user ClickPreviousWeek srv st =
    (Some tt,
     if currentWeek st =? 1 then st
     else with_currentWeek (previousWeek (currentWeek st)) st,
     []).
Proof.
  intros Hloading Hr. rewrite handle_dispatch. unfold dispatch.
  rewrite Hloading, Hr. now destruct (currentWeek st =? 1).
Qed.

(** X8.  Clicking "next" [n] times from a week not beyond the last one
    shows week [min(duration_weeks, week + n)]; clicking "previous" [n]
    times from a week not below 1 shows [max(1, week - n)].  Nothing else
    of the page changes and nothing is sent. *)
Theorem week_clicks_closed_form user st r :
  isLoading st = false -> roadmap st = Some r ->
  (forall events,
      Forall (fun ev => snd ev = ClickNextWeek) events ->
      currentWeek st <= duration_weeks r ->
      play user events st =
        (with_currentWeek
           (Z.min (duration_weeks r) (currentWeek st + Z.of_nat (length events)))
           st, [])) /\
  (forall events,
      Forall (fun ev => snd ev = ClickPreviousWeek) events ->
      1 <= currentWeek st ->
      play user events st =
        (with_currentWeek
           (Z.max 1 (currentWeek st - Z.of_nat (length events))) st, [])).
Proof.
  intros Hloading Hr. split.
  - intros events Hall. revert st Hloading Hr.
    induction Hall as [|[srv e] events He _ IH]; intros st Hloading Hr Hle.
    + cbn. rewrite Z.add_0_r, Z.min_r by lia. now rewrite with_currentWeek_same.
    + cbn in He. subst e. cbn [play].
      rewrite (handle_next_week user srv st r Hloading Hr).
      unfold state_of, log_of. cbn [fst snd].
      destruct (Z.eqb_spec (currentWeek st) (duration_weeks r)) as [Heq|Hne].
      * rewrite (IH st Hloading Hr Hle). cbn [app]. f_equal. f_equal.
        rewrite length_cons. lia.
      * rewrite IH; cbn; try assumption; [|unfold nextWeek; lia].
        cbn [app]. f_equal. unfold with_currentWeek. cbn. f_equal.
        unfold nextWeek. lia.
  - intros events Hall. revert st Hloading Hr.
    induction Hall as [|[srv e] events He _ IH]; intros st Hloading Hr Hle.
    + cbn. rewrite Z.sub_0_r, Z.max_r by lia. now rewrite with_currentWeek_same.
    + cbn in He. subst e. cbn [play].
      rewrite (handle_previous_week user srv st r Hloading Hr).
      unfold state_of, log_of. cbn [fst snd].
      destruct (Z.eqb_spec (currentWeek st) 1) as [Heq|Hne].
      * rewrite (IH st Hloading Hr Hle). cbn [app]. f_equal. f_equal.
        rewrite length_cons. lia.
      * rewrite IH; cbn; try assumption; [|unfold previousWeek; lia].
        cbn [app]. f_equal. unfold with_currentWeek. cbn. f_equal.
        unfold previousWeek. lia.
Qed.

Lemma week_clicks_closed_form_witness :
  currentWeek
    (fst (play None [(offline, ClickNextWeek); (backend, ClickNextWeek);
                     (offline, ClickNextWeek)] loaded)) = 4 /\
  currentWeek
    (fst (play None [(offline, ClickPreviousWeek); (backend, ClickPreviousWeek)]
            loaded)) = 1.
Proof.
  destruct (week_clicks_closed_form None loaded
              (rest_roadmap (Some 2) (Some 50)) eq_refl eq_refl)
    as [Hnext Hprevious].
  split.
  - rewrite Hnext; [reflexivity|repeat constructor|cbn; lia].
  - rewrite Hprevious; [reflexivity|repeat constructor|cbn; lia].
Defined.

(** X9.  Inside the roadmap the two buttons undo each other: "next" then
    "previous" from a week in [1, duration_weeks) gives back the very same
    page state, and so does "previous" then "next" from a week in
    (1, duration_weeks]. *)
Theorem week_buttons_inverse user (srv1 srv2 : Server) st r :
  isLoading st = false -> roadmap st = Some r ->
  (1 <= currentWeek st < duration_weeks r ->
   play user [(srv1, ClickNextWeek); (srv2, ClickPreviousWeek)] st = (st, [])) /\
  (1 < currentWeek st <= duration_weeks r ->
   play user [(srv1, ClickPreviousWeek); (srv2, ClickNextWeek)] st = (st, [])).
Proof.
  intros Hloading Hr. split; intros Hweek; cbn [play].
  - rewrite (handle_next_week user srv1 st r Hloading Hr).
    unfold state_of, log_of. cbn [fst snd].
    destruct (Z.eqb_spec (currentWeek st) (duration_weeks r)); [lia|].
    rewrite (handle_previous_week user srv2 _ r); [|assumption..].
    cbn [fst snd currentWeek with_currentWeek].
    destruct (Z.eqb_spec (nextWeek r (currentWeek st)) 1) as [Heq|_];
      [unfold nextWeek in Heq; lia|].
    cbn. f_equal. destruct st; unfold with_currentWeek; cbn in *. f_equal.
    unfold nextWeek, previousWeek. cbn. lia.
  - rewrite (handle_previous_week user srv1 st r Hloading Hr).
    unfold state_of, log_of. cbn [fst snd].
    destruct (Z.eqb_spec (currentWeek st) 1); [lia|].
    rewrite (handle_next_week user srv2 _ r); [|assumption..].
    cbn [fst snd currentWeek with_currentWeek].
    destruct (Z.eqb_spec (previousWeek (currentWeek st)) (duration_weeks r))
      as [Heq|_]; [unfold previousWeek in Heq; lia|].
    cbn. f_equal. destruct st; unfold with_currentWeek; cbn in *. f_equal.
    unfold nextWeek, previousWeek. cbn. lia.
Qed.

Lemma week_buttons_inverse_witness :
  play None [(offline, ClickNextWeek); (backend, ClickPreviousWeek)] loaded =
    (loaded, []) /\
  play None [(backend, ClickPreviousWeek); (offline, ClickNextWeek)] loaded =
    (loaded, []).
Proof.
  destruct (week_buttons_inverse None offline backend loaded
              (rest_roadmap (Some 2) (Some 50)) eq_refl eq_refl) as [Hnext _].
  destruct (week_buttons_inverse None backend offline loaded
              (rest_roadmap (Some 2) (Some 50)) eq_refl eq_refl) as [_ Hprevious].
  split; [apply Hnext|apply Hprevious]; cbn; lia.
Defined.

(** X10.  A displayed week that lies outside the roadmap is brought back by
    one click: from a week beyond the last, "next" shows the last week; from
    a week below 1, "previous" shows week 1.  With at least one week in the
    roadmap the displayed week is within bounds afterwards. *)
Theorem stray_week_snaps_back user (srv : Server) st r :
  isLoading st = false -> roadmap st = Some r ->
  (duration_weeks r < currentWeek st ->
   let st' := state_of (handle user ClickNextWeek srv st) in
   currentWeek st' = duration_weeks r /\
   (1 <= duration_weeks r -> week_in_bounds st')) /\
  (currentWeek st < 1 ->
   let st' := state_of (handle user ClickPreviousWeek srv st) in
   currentWeek st' = 1 /\
   (1 <= duration_weeks r -> week_in_bounds st')).
Proof.
  intros Hloading Hr. split; intros Hweek; cbv zeta.
  - rewrite (handle_next_week user srv st r Hloading Hr).
    unfold state_of. cbn [fst snd].
    destruct (Z.eqb_spec (currentWeek st) (duration_weeks r)); [lia|].
    unfold week_in_bounds. cbn. rewrite Hr. unfold nextWeek. split; lia.
  - rewrite (handle_previous_week user srv st r Hloading Hr).
    unfold state_of. cbn [fst snd].
    destruct (Z.eqb_spec (currentWeek st) 1); [lia|].
    unfold week_in_bounds. cbn. rewrite Hr. unfold previousWeek. split; lia.
Qed.

Lemma stray_week_snaps_back_witness :
  let stray :=
    state_of (loadRoadmap None (serving (rest_roadmap (Some 9) None) [])
                initialState) in
  currentWeek stray = 9 /\
  currentWeek (state_of (handle None ClickNextWeek offline stray)) = 4 /\
  week_in_bounds (state_of (handle None ClickNextWeek offline stray)).
Proof.
  cbv zeta. split; [reflexivity|].
  match goal with
  | |- context [handle None ClickNextWeek offline ?st] =>
      destruct (proj1 (stray_week_snaps_back None offline st
                         (rest_roadmap (Some 9) None) eq_refl eq_refl))
        as [Hweek Hbounds]; [cbn; lia|]
  end.
  split; [exact Hweek|apply Hbounds; cbn; lia].
Defined.

(** ** The weekly card *)

Lemma find_numbered (ws : list WeekPlan) (offset shown : Z) :
  (forall i w, ws !! i = Some w -> week w = offset + Z.of_nat i) ->
  List.find (fun w => week w =? shown) ws =
    if (offset <=? shown) && (shown <? offset + Z.of_nat (length ws))
    then ws !! Z.to_nat (shown - offset) else None.
Proof.
  revert offset. induction ws as [|w ws IH]; intros offset Hnumbered.
  - cbn [List.find]. rewrite lookup_nil. now destruct (_ && _).
  - pose proof (Hnumbered 0%nat w eq_refl) as Hw. cbn in Hw.
    cbn [List.find]. rewrite length_cons.
    destruct (Z.eqb_spec (week w) shown) as [Heq|Hne].
    + replace (shown - offset) with 0 by lia.
      destruct (Z.leb_spec offset shown); [|lia].
      destruct (Z.ltb_spec shown (offset + Z.of_nat (S (length ws)))); [|lia].
      reflexivity.
    + rewrite (IH (offset + 1));
        [|intros i w' Hi; rewrite (Hnumbered (S i) w' Hi); lia].
      destruct (Z.leb_spec (offset + 1) shown), (Z.leb_spec offset shown);
        try lia; cbn [andb]; [|reflexivity].
      destruct (Z.ltb_spec shown (offset + 1 + Z.of_nat (length ws))),
               (Z.ltb_spec shown (offset + Z.of_nat (S (length ws))));
        try lia; [|reflexivity].
      replace (Z.to_nat (shown - offset))
        with (S (Z.to_nat (shown - (offset + 1)))) by lia.
      reflexivity.
Qed.

(** X11.  For a roadmap whose weeks are numbered 1, 2, ... in order, the
    weekly card shows the week at position [currentWeek - 1] whenever the
    displayed week is between 1 and the number of weeks; for any other
    displayed week it shows the title "Loading...", no milestone and no
    grid. *)
Theorem weekData_numbered r shown :
  (forall i w, weeks r !! i = Some w -> week w = Z.of_nat i + 1) ->
  (1 <= shown <= Z.of_nat (length (weeks r)) ->
   exists w,
     weeks r !! Z.to_nat (shown - 1) = Some w /\ weekData r shown = Some w) /\
  (shown < 1 \/ Z.of_nat (length (weeks r)) < shown ->
   weekData r shown = None /\
   weekTheme r shown = "Loading..." /\
   milestoneBanner r shown = None /\
   weekGrid r shown = None).
Proof.
  intros Hnumbered.
  assert (weekData r shown =
            if (1 <=? shown) && (shown <? 1 + Z.of_nat (length (weeks r)))
            then weeks r !! Z.to_nat (shown - 1) else None) as Hfind.
  { apply find_numbered. intros i w Hi. rewrite (Hnumbered i w Hi). lia. }
  split.
  - intros Hin. rewrite Hfind.
    destruct (Z.leb_spec 1 shown); [|lia].
    destruct (Z.ltb_spec shown (1 + Z.of_nat (length (weeks r)))); [|lia].
    cbn [andb].
    destruct (lookup_lt_is_Some_2 (weeks r) (Z.to_nat (shown - 1))) as [w Hw];
      [lia|]. eauto.
  - intros Hout.
    assert (weekData r shown = None) as Hnone.
    { rewrite Hfind.
      destruct (Z.leb_spec 1 shown); [|reflexivity].
      destruct (Z.ltb_spec shown (1 + Z.of_nat (length (weeks r)))); [lia|].
      reflexivity. }
    unfold weekTheme, milestoneBanner, weekGrid. now rewrite Hnone.
Qed.

Lemma weekData_numbered_witness :
  let r := rest_roadmap (Some 9) None in
  (exists w, weeks r !! 2%nat = Some w /\ weekData r 3 = Some w) /\
  weekData r 9 = None /\ weekTheme r 9 = "Loading..." /\
  milestoneBanner r 9 = None /\ weekGrid r 9 = None.
Proof.
  cbv zeta.
  assert (forall i w,
             weeks (rest_roadmap (Some 9) None) !! i = Some w ->
             week w = Z.of_nat i + 1) as Hnumbered.
  { intros [|[|[|[|i]]]] w Hw; cbn in Hw; try discriminate;
      injection Hw as <-; reflexivity. }
  destruct (weekData_numbered (rest_roadmap (Some 9) None) 3 Hnumbered)
    as [Hin _].
  destruct (weekData_numbered (rest_roadmap (Some 9) None) 9 Hnumbered)
    as [_ Hout].
  split; [apply Hin; cbn; lia|apply Hout; right; cbn; lia].
Defined.

Lemma dayCell_counts w index label :
  let cell := dayCell w index label in
  cellLabel cell = label /\
  (completedTasks cell <= totalTasks cell)%nat /\
  (barShown cell = true <-> (0 < totalTasks cell)%nat) /\
  ((length (days w) <= index)%nat ->
   cellFocus cell = "Rest" /\ totalTasks cell = 0%nat /\ barShown cell = false).
Proof.
  cbv zeta. unfold dayCell.
  cbn [cellLabel cellFocus completedTasks totalTasks barShown].
  split; [reflexivity|]. split; [|split].
  - destruct (days w !! index) as [d|]; cbn; [apply List.filter_length_le|lia].
  - apply Nat.ltb_lt.
  - intros Hshort. now rewrite (lookup_ge_None_2 _ _ Hshort).
Qed.

Lemma dayCell_first_seven w w' index label :
  (index < 7)%nat -> take 7 (days w') = take 7 (days w) ->
  dayCell w' index label = dayCell w index label.
Proof.
  intros Hindex Htake. unfold dayCell.
  assert (days w' !! index = days w !! index) as ->; [|reflexivity].
  rewrite <- (lookup_take_lt (days w') 7 index Hindex), Htake.
  now apply lookup_take_lt.
Qed.

(** X12.  When the displayed week is found, the grid has exactly the seven
    cells Mon..Sun, whatever the number of days of the week: it is drawn
    from the first seven day plans only, and a missing day plan gives a
    "Rest" cell without a bar.  In every cell the completed count is at most
    the total, and the bar is there exactly when the day has tasks. *)
Theorem weekGrid_seven_cells r shown cells :
  weekGrid r shown = Some cells ->
  exists w,
    weekData r shown = Some w /\
    cellLabel <$> cells = dayLabels /\
    (forall w',
        take 7 (days w') = take 7 (days w) ->
        imap (dayCell w') dayLabels = cells) /\
    (forall index cell,
        cells !! index = Some cell ->
        (completedTasks cell <= totalTasks cell)%nat /\
        (barShown cell = true <-> (0 < totalTasks cell)%nat) /\
        ((length (days w) <= index)%nat ->
         cellFocus cell = "Rest" /\ totalTasks cell = 0%nat /\
         barShown cell = false)).
Proof.
  unfold weekGrid. intros Hgrid.
  destruct (weekData r shown) as [w|]; [|discriminate].
  injection Hgrid as <-. exists w. split; [reflexivity|].
  split; [reflexivity|]. split.
  - intros w' Htake. unfold dayLabels. cbn [imap compose].
    rewrite !(dayCell_first_seven w w') by (assumption || lia). reflexivity.
  - intros index cell Hcell.
    do 7 (destruct index as [|index];
          [injection Hcell as <-; apply dayCell_counts|]).
    discriminate.
Qed.

Lemma weekGrid_seven_cells_witness :
  exists w,
    weekData (rest_roadmap None None) 2 = Some w /\
    cellLabel <$> imap (dayCell (rest_week 2)) dayLabels = dayLabels.
Proof.
  destruct (weekGrid_seven_cells (rest_roadmap None None) 2
              (imap (dayCell (rest_week 2)) dayLabels) eq_refl)
    as (w & Hw & Hlabels & _).
  exists w. split; assumption.
Defined.

Lemma handle_click_task_view user index (srv : Server) st :
  roadmap (state_of (handle user (ClickTask index) srv st)) = roadmap st /\
  currentWeek (state_of (handle user (ClickTask index) srv st)) = currentWeek st.
Proof.
  rewrite handle_dispatch. unfold dispatch.
  destruct (isLoading st); [now split|].
  destruct (roadmap st) as [r|] eqn:Hr; [|now split].
  destruct (todaysTasks st !! index) as [task|]; [|now split].
  destruct (completed task); [now split|].
  now destruct (completeTask_cases (task_id task) srv st).
Qed.

(** X13.  Ticking tasks never refreshes the figures drawn from the roadmap:
    after any number of clicks on check boxes, against any backends, the
    progress percentage and the weekly card (title, milestone, the seven
    cells with their completed counts) are what they were. *)
Theorem task_clicks_keep_figures user events st :
  Forall (fun ev => exists index, snd ev = ClickTask index) events ->
  let st' := fst (play user events st) in
  overallProgress <$> roadmap st' = overallProgress <$> roadmap st /\
  weekCard st' = weekCard st.
Proof.
  intros Hall. cbv zeta.
  assert (roadmap (fst (play user events st)) = roadmap st /\
          currentWeek (fst (play user events st)) = currentWeek st)
    as [Hroadmap Hweek].
  { revert st. induction Hall as [|[srv e] events [index He] _ IH]; intros st.
    - now split.
    - cbn in He. subst e. cbn [play].
      destruct (handle_click_task_view user index srv st) as [Hr Hw].
      specialize (IH (state_of (handle user (ClickTask index) srv st))).
      destruct (play user events _) as [st' log']. cbn [fst] in *.
      destruct IH as [IHr IHw]. split; congruence. }
  unfold weekCard. now rewrite Hroadmap, Hweek.
Qed.

Lemma task_clicks_keep_figures_witness :
  let st' := fst (play None [(backend, ClickTask 0%nat); (backend, ClickTask 1%nat)]
                    loaded) in
  completed <$> todaysTasks st' = [true; true] /\
  overallProgress <$> roadmap st' = Some 50 /\
  weekCard st' = weekCard loaded.
Proof.
  cbv zeta. split; [reflexivity|].
  apply (task_clicks_keep_figures None _ loaded). repeat constructor; eauto.
Defined.

(** ** Icons *)

Lemma same_ignoring_case_lower s1 s2 :
  same_ignoring_case s1 s2 = true <-> toLowerCase s1 = toLowerCase s2.
Proof.
  revert s2. induction s1 as [|c1 s1 IH]; intros [|c2 s2]; cbn;
    try (split; [discriminate|discriminate]); [tauto|].
  rewrite andb_true_iff, IH, Ascii.eqb_eq. split.
  - now intros [-> ->].
  - intros Heq. injection Heq as -> ->. now split.
Qed.

(** X14.  The icon of a task depends on its resource type up to the case of
    ASCII letters: "video", "article" and "practice", in any capitalisation,
    get their own icon, and every other type gets the academic cap. *)
Theorem getResourceIcon_ignores_case :
  (forall type1 type2,
      same_ignoring_case type1 type2 = true ->
      getResourceIcon type1 = getResourceIcon type2) /\
  (forall type,
      (getResourceIcon type = VideoCameraIcon <->
       same_ignoring_case type "video" = true) /\
      (getResourceIcon type = BookOpenIcon <->
       same_ignoring_case type "article" = true) /\
      (getResourceIcon type = CodeBracketIcon <->
       same_ignoring_case type "practice" = true)).
Proof.
  split.
  - intros type1 type2 Hsame. apply same_ignoring_case_lower in Hsame.
    unfold getResourceIcon. now rewrite Hsame.
  - intros type. rewrite !same_ignoring_case_lower. unfold getResourceIcon.
    change (toLowerCase "video") with "video".
    change (toLowerCase "article") with "article".
    change (toLowerCase "practice") with "practice".
    destruct (String.eqb_spec (toLowerCase type) "video") as [->|Hvideo];
      [repeat split; intros; try discriminate; reflexivity|].
    destruct (String.eqb_spec (toLowerCase type) "article") as [->|Harticle];
      [repeat split; intros; try discriminate; reflexivity|].
    destruct (String.eqb_spec (toLowerCase type) "practice") as [->|Hpractice];
      [repeat split; intros; try discriminate; reflexivity|].
    repeat split; intros; try discriminate; contradiction.
Qed.

Lemma getResourceIcon_ignores_case_witness :
  getResourceIcon "Video" = getResourceIcon "VIDEO" /\
  getResourceIcon "PRACTICE" = CodeBracketIcon.
Proof.
  destruct getResourceIcon_ignores_case as [Hsame Hnames]. split.
  - apply Hsame. reflexivity.
  - apply (Hnames "PRACTICE"). reflexivity.
Defined.

(** ** Requests *)

Lemma string_app_inj_r (s1 s2 t : string) : s1 +:+ t = s2 +:+ t -> s1 = s2.
Proof.
  revert s2. induction s1 as [|c1 s1 IH]; intros [|c2 s2] Heq.
  - reflexivity.
  - change (t = String c2 (s2 +:+ t)) in Heq.
    apply (f_equal String.length) in Heq.
    cbn in Heq. rewrite string_length_app in Heq. lia.
  - change (String c1 (s1 +:+ t) = t) in Heq.
    apply (f_equal String.length) in Heq.
    cbn in Heq. rewrite string_length_app in Heq. lia.
  - change (String c1 (s1 +:+ t) = String c2 (s2 +:+ t)) in Heq.
    injection Heq as -> Heq. f_equal. now apply IH.
Qed.

Lemma last_char_app (s t : string) :
  t <> EmptyString -> last_char (s +:+ t) = last_char t.
Proof.
  intros Ht. induction s as [|c s IH]; [reflexivity|].
  change (String c s +:+ t) with (String c (s +:+ t)).
  cbn [last_char]. rewrite IH.
  destruct (s +:+ t) eqn:Happ; [|reflexivity].
  destruct s; [|discriminate]. now destruct t.
Qed.

(** X15.  A request determines the call it was made for: two calls of the
    page ([generate], [getActive], [getTodaysTasks], [updateProgress]) that
    produce the same HTTP request are the same function with the same
    arguments.  So no student id, roadmap id or task id can make one of
    these requests pass for another. *)
Theorem request_of_injective {R1 R2} (call1 : roadmapAPI R1) (call2 : roadmapAPI R2) :
  request_of call1 = request_of call2 -> call_of call1 = call_of call2.
Proof.
  pose proof (String.app_inj "/roadmap/") as Hprefix.
  pose (url := fun request => match request with GET u | POST u _ => u end).
  pose (body := fun request =>
                  match request with GET _ => [] | POST _ data => data end).
  intros Heq.
  pose proof (f_equal url Heq) as Hurl. pose proof (f_equal body Heq) as Hbody.
  destruct call1, call2; try discriminate Heq;
    cbv beta iota delta [url body request_of] in Hurl, Hbody;
    cbn [call_of]; clear Heq url body.
  - now subst.
  - symmetry in Hurl. now apply progress_url_not_generate in Hurl.
  - change ("/roadmap/student/" +:+ studentId +:+ "/active")
      with ("/roadmap/student/" +:+ (studentId +:+ "/active")) in Hurl.
    apply (String.app_inj "/roadmap/student/"), string_app_inj_r in Hurl.
    now subst.
  - change ("/roadmap/student/" +:+ studentId +:+ "/active")
      with ("/roadmap/" +:+ ("student/" +:+ studentId) +:+ "/active") in Hurl.
    apply Hprefix in Hurl. apply (f_equal last_char) in Hurl.
    rewrite !last_char_app in Hurl by discriminate. discriminate.
  - change ("/roadmap/student/" +:+ studentId +:+ "/active")
      with ("/roadmap/" +:+ ("student/" +:+ studentId) +:+ "/active") in Hurl.
    apply Hprefix in Hurl. apply (f_equal last_char) in Hurl.
    rewrite !last_char_app in Hurl by discriminate. discriminate.
  - apply Hprefix, string_app_inj_r in Hurl. now subst.
  - now apply progress_url_not_generate in Hurl.
  - apply Hprefix, string_app_inj_r in Hurl. injection Hbody as ->. now subst.
Qed.

Lemma request_of_injective_witness :
  call_of (getTodaysTasks "r1") = call_of (getTodaysTasks "r1").
Proof. apply request_of_injective. reflexivity. Defined.

(** ** The store and the student id *)

Lemma store_run_loading actions s :
  Store.isLoading (Store.run actions s) =
  Store.last_loading actions (Store.isLoading s).
Proof.
  unfold Store.run, Store.last_loading. revert s.
  induction actions as [|a actions IH]; intros s; [reflexivity|].
  cbn [foldl]. rewrite IH. now destruct a.
Qed.

(** X16.  After any sequence of store actions that ends with [logout], the
    user, the profile and the token are gone and nothing of them is left in
    what is persisted; [logout] does not reset the loading flag, which is
    what the last [setLoading] made it. *)
Theorem logout_clears_credentials actions s :
  let s' := Store.run (actions ++ [Store.Logout]) s in
  Store.user s' = None /\
  Store.profile s' = None /\
  Store.token s' = None /\
  Store.partialize s' = (None, None) /\
  Store.isLoading s' = Store.last_loading actions (Store.isLoading s).
Proof.
  cbv zeta. unfold Store.run. rewrite foldl_app. cbn [foldl Store.act].
  repeat split. apply store_run_loading.
Qed.



(** ** Reading a number back from the DOM *)







(** ** One click, one task *)

Lemma markCompleted_unique (tasks : list Task) index task :
  tasks !! index = Some task ->
  NoDup (task_id <$> tasks) ->
  markCompleted (task_id task) tasks = <[index := with_completed_true task]> tasks.
Proof.
  intros Hindex Hunique. apply list_eq. intros i.
  rewrite markCompleted_lookup.
  destruct (decide (i = index)) as [-> | Hne].
  - rewrite Hindex, list_lookup_insert_eq by (eapply lookup_lt_Some; eauto).
    cbn. now rewrite String.eqb_refl.
  - rewrite list_lookup_insert_ne by congruence.
    destruct (tasks !! i) as [other|] eqn:Hi; [|reflexivity]. cbn.
    destruct (String.eqb_spec (task_id other) (task_id task)) as [Hsame|];
      [|reflexivity].
    exfalso. apply Hne.
    apply (NoDup_lookup (task_id <$> tasks) i index (task_id task));
      [exact Hunique|..]; rewrite list_lookup_fmap.
    + rewrite Hi. cbn. now rewrite Hsame.
    + now rewrite Hindex.
Qed.

(** X19.  With unique task ids, a click on the check box of a pending task
    that the backend accepts completes that task and no other: the new list
    is the old one with the clicked position replaced by the completed task.
    One request is sent, for that task, and the success toast is shown. *)
Theorem click_completes_that_task user (srv : Server) st r index task :
  isLoading st = false -> roadmap st = Some r ->
  todaysTasks st !! index = Some task -> completed task = false ->
  srv unit (updateProgress (roadmap_id r) (task_id task)) = Some tt ->
  NoDup (task_id <$> todaysTasks st) ->
  handle user (ClickTask index) srv st =
    (Some tt,
     with_todaysTasks (<[index := with_completed_true task]> (todaysTasks st)) st,
     [Sent (POST ("/roadmap/" +:+ roadmap_id r +:+ "/progress")
                 [("task_id", JString (task_id task))]);
      ToastSuccess "Task completed!"]).
Proof.
  intros Hloading Hr Hindex Hpending Hsrv Hunique.
  rewrite handle_dispatch. unfold dispatch.
  rewrite Hloading, Hr, Hindex, Hpending.
  rewrite (completeTask_resolved _ srv st r tt Hr Hsrv).
  now rewrite (markCompleted_unique _ index task Hindex Hunique).
Qed.

Lemma click_completes_that_task_witness :
  todaysTasks (state_of (handle None (ClickTask 0) backend loaded)) =
    [with_completed_true sql_video; sql_practice].
Proof.
  rewrite (click_completes_that_task None backend loaded
             (rest_roadmap (Some 2) (Some 50)) 0%nat sql_video);
    try reflexivity.
  apply NoDup_cons. split; [|apply NoDup_singleton].
  intros Hin. apply list_elem_of_singleton in Hin. discriminate Hin.
Defined.
